(** * vcenter_folder: folder resolution and the present/absent reconciler

    A shallow embedding of [plugins/modules/vcenter_folder.py]
    ([VmwareFolderManager.get_folder] and [VmwareFolderManager.ensure])
    and the properties of its specification.

    The vCenter inventory is a store of managed objects addressed by their
    managed object id.  Calls that reach the platform are recorded in a
    trace; [exit_json], [fail_json] and Python exceptions are the three ways
    a computation stops. *)

From Stdlib Require Import Ascii String.
From stdpp Require Import gmap strings list.

(** * The module *)

(** ** Python string operations used by the module *)

Module PyStr.

(** [c in s] for a one-character needle. *)
Fixpoint contains (c : ascii) (s : string) : bool :=
  match s with
  | EmptyString => false
  | String a s' => if Ascii.eqb a c then true else contains c s'
  end.

Fixpoint lstrip (c : ascii) (s : string) : string :=
  match s with
  | EmptyString => EmptyString
  | String a s' => if Ascii.eqb a c then lstrip c s' else s
  end.

Fixpoint rstrip (c : ascii) (s : string) : string :=
  match s with
  | EmptyString => EmptyString
  | String a s' =>
      match rstrip c s' with
      | EmptyString => if Ascii.eqb a c then EmptyString else String a EmptyString
      | r => String a r
      end
  end.

(** [s.strip(c)] *)
Definition strip (c : ascii) (s : string) : string := rstrip c (lstrip c s).

(** [s.split(c)]: an explicit separator keeps empty fields, and the empty
    string splits to one empty field. *)
Fixpoint split (c : ascii) (s : string) : list string :=
  match s with
  | EmptyString => [EmptyString]
  | String a s' =>
      if Ascii.eqb a c then EmptyString :: split c s'
      else match split c s' with
           | h :: t => String a h :: t
           | [] => [String a EmptyString]
           end
  end.

(** Truth value of an optional string parameter: [None] and [""] are false. *)
Definition truthy (o : option string) : bool :=
  match o with
  | None | Some EmptyString => false
  | Some _ => true
  end.

(** [%s] applied to a value that is a string or [None]. *)
Definition fmt (o : option string) : string :=
  match o with
  | None => "None"
  | Some s => s
  end.

(** A Python string is a sequence of characters (code points); it is held
    here in UTF-8, one character on one to four bytes.  The bytes of the
    form [10xxxxxx] continue a character, every other byte starts one. *)
Definition continuation (a : ascii) : bool :=
  match a with
  | Ascii _ _ _ _ _ _ b6 b7 => b7 && negb b6
  end.

(** [len(s)]: the number of characters of [s]. *)
Fixpoint len (s : string) : nat :=
  match s with
  | EmptyString => 0
  | String a s' => if continuation a then len s' else S (len s')
  end.

End PyStr.

(** ** Data model *)

Definition moid := string.
Definition task := string.

(** What the module reads of a managed object. *)
Record managed_object := {
  mo_name : string;
  mo_parent : option moid;
  mo_childType : list string;
}.

Inductive FolderType := vm | host | datastore | network.

Definition folder_type_str (t : FolderType) : string :=
  match t with
  | vm => "vm"
  | host => "host"
  | datastore => "datastore"
  | network => "network"
  end.

Inductive State := present | absent.

(** Python exceptions the module meets; each carries its text. *)
Inductive exn :=
| ManagedObjectNotFound (text : string)
| AttributeError (text : string)
| TypeError (text : string)
| DuplicateName (text : string)
| InvalidName (text : string)
| ConcurrentAccess (text : string)
| InvalidState (text : string)
| OtherException (text : string).

Definition to_native (e : exn) : string :=
  match e with
  | ManagedObjectNotFound t | AttributeError t | TypeError t | DuplicateName t
  | InvalidName t | ConcurrentAccess t | InvalidState t | OtherException t => t
  end.

(** Values stored in the [results] dictionary. *)
Inductive value :=
| VBool (b : bool)
| VStr (s : string)
| VDict (d : gmap string string).

(** How an invocation ends through the module object. *)
Inductive outcome :=
| ExitJson (results : gmap string value)
| FailJson (msg : string).

(** Calls issued to the inventory client. *)
Inductive call :=
| CallGetAllObjs (anchor : option moid)
| CallCreateFolder (parent : moid) (name : string)
| CallDestroy (folder : moid)
| CallUnregisterAndDestroy (folder : moid)
| CallWaitForTask (t : task).

Definition is_mutation (c : call) : bool :=
  match c with
  | CallCreateFolder _ _ | CallDestroy _ | CallUnregisterAndDestroy _ => true
  | CallGetAllObjs _ | CallWaitForTask _ => false
  end.

(** The inventory client.  [get_all_objs], [wait_for_task] and
    [get_folder_path] live in the collection's [module_utils], and the three
    mutations are platform methods: they are taken as they answer, a value
    or a raised exception.  [get_all_objs] answers with the folders of a
    container view under the anchor, in the order it lists them;
    [wait_for_task] with the pair that [ensure] unpacks into [changed] and
    [msg]. *)
Record Client := {
  objects : gmap moid managed_object;
  get_all_objs : option moid → list moid;
  CreateFolder : moid → string → exn + moid;
  Destroy : moid → exn + task;
  UnregisterAndDestroy : moid → exn + task;
  wait_for_task : task → exn + (bool * string);
  get_folder_path : moid → string;
}.

Record Params := {
  state : State;
  datacenter : string;
  folder_type : FolderType;
  folder_name : string;
  parent_folder : option string;
  parent_folder_moid : option string;
}.

Record VmwareFolderManager := {
  content : Client;
  params : Params;
  check_mode : bool;
  datacenter_folder_type : FolderType → moid;
}.

(** ** Control: trace, exceptions and module exit *)

Inductive res (A : Type) :=
| Ret (a : A)
| Raise (e : exn)
| Exit (o : outcome).
Arguments Ret {A} a.
Arguments Raise {A} e.
Arguments Exit {A} o.

Definition M (A : Type) : Type := list call * res A.

#[export] Instance M_ret : MRet M := λ A a, ([], Ret a).

#[export] Instance M_bind : MBind M := λ A B f m,
  match m with
  | (tr, Ret a) => let '(tr', r) := f a in (tr ++ tr', r)
  | (tr, Raise e) => (tr, Raise e)
  | (tr, Exit o) => (tr, Exit o)
  end.

Definition raise {A} (e : exn) : M A := ([], Raise e).
Definition tell (c : call) : M unit := ([c], Ret tt).
Definition exit_json {A} (results : gmap string value) : M A := ([], Exit (ExitJson results)).
Definition fail_json {A} (msg : string) : M A := ([], Exit (FailJson msg)).

(** [try: body except Exception as e: handler e].  [exit_json] and
    [fail_json] leave through [SystemExit], which no handler here catches. *)
Definition try_except {A} (body : M A) (handler : exn → M A) : M A :=
  match body with
  | (tr, Raise e) => let '(tr', r) := handler e in (tr ++ tr', r)
  | m => m
  end.

(** Lift an answer of the platform. *)
Definition answer {A} (a : exn + A) : M A :=
  match a with
  | inl e => raise e
  | inr x => mret x
  end.

Definition trace {A} (m : M A) : list call := fst m.
Definition final {A} (m : M A) : res A := snd m.

(** ** Attribute access on managed object references *)

Section Attributes.
Context (c : Client).

Definition get_object (o : moid) : M managed_object :=
  match objects c !! o with
  | Some m => mret m
  | None => raise (ManagedObjectNotFound o)
  end.

(** [o.name] *)
Definition attr_name (o : moid) : M string := m ← get_object o; mret (mo_name m).
(** [o.childType] *)
Definition attr_childType (o : moid) : M (list string) :=
  m ← get_object o; mret (mo_childType m).
(** [o.parent] *)
Definition attr_parent (o : moid) : M (option moid) := m ← get_object o; mret (mo_parent m).

(** [o.parent.parent.name]; an attribute of [None] is an [AttributeError]. *)
Definition attr_parent_parent_name (o : moid) : M string :=
  p ← attr_parent o;
  match p with
  | None => raise (AttributeError "'NoneType' object has no attribute 'parent'")
  | Some p =>
      pp ← attr_parent p;
      match pp with
      | None => raise (AttributeError "'NoneType' object has no attribute 'name'")
      | Some pp => attr_name pp
      end
  end.
End Attributes.


(** [Some s] when the optional string parameter is true in a condition. *)
Definition nonempty (o : option string) : option string :=
  if PyStr.truthy o then o else None.

(** [results['result'][k] = v] *)
Definition set_result_item (k v : string) (results : gmap string value)
  : M (gmap string value) :=
  match results !! "result" with
  | Some (VDict d) => mret (<["result" := VDict (<[k := v]> d)]> results)
  | Some _ => raise (TypeError "'str' object does not support item assignment")
  | None => raise (OtherException "KeyError: 'result'")
  end.

(** ** The folder manager *)

Section Manager.
Context (self : VmwareFolderManager).

Let c := content self.

(** [VmwareFolderManager.get_folder]: the [for] loop over the enumerated
    folders.  [and] evaluates its operands left to right and stops at the
    first false one. *)
Fixpoint get_folder_loop (datacenter_name folder_name : string)
    (folder_type : FolderType) (parent_folder : option moid)
    (folder_objs : list moid) : M (option moid) :=
  match folder_objs with
  | [] => mret None
  | folder :: rest =>
      let next := get_folder_loop datacenter_name folder_name folder_type parent_folder rest in
      match parent_folder with
      | Some _ =>
          n ← attr_name c folder;
          if decide (n = folder_name) then
            sig ← attr_childType c (datacenter_folder_type self folder_type);
            ct ← attr_childType c folder;
            if decide (sig = ct) then mret (Some folder) else next
          else next
      | None =>
          n ← attr_name c folder;
          if decide (n = folder_name) then
            sig ← attr_childType c (datacenter_folder_type self folder_type);
            ct ← attr_childType c folder;
            if decide (sig = ct) then
              ppn ← attr_parent_parent_name c folder;
              if decide (ppn = datacenter_name) then mret (Some folder) else next
            else next
          else next
      end
  end.

Definition get_folder (datacenter_name folder_name : string)
    (folder_type : FolderType) (parent_folder : option moid) : M (option moid) :=
  _ ← tell (CallGetAllObjs parent_folder);
  get_folder_loop datacenter_name folder_name folder_type parent_folder
    (get_all_objs c parent_folder).

(** The [for part in parent_folder_parts] loop of [ensure]; [p_folder_obj]
    is the loop-carried variable. *)
Fixpoint walk_parts (datacenter_name : string) (folder_type : FolderType)
    (parent_folder_parts : list string) (p_folder_obj : option moid)
  : M (option moid) :=
  match parent_folder_parts with
  | [] => mret p_folder_obj
  | part :: rest =>
      part_folder_obj ← get_folder datacenter_name part folder_type p_folder_obj;
      match part_folder_obj with
      | None => fail_json ("Could not find folder " +:+ part)
      | Some o => walk_parts datacenter_name folder_type rest (Some o)
      end
  end.

(** [VmomiSupport.templateOf('Folder')(moid, stub)] followed by the guarded
    read of its name. *)
Definition name_of_moid (parent_folder_moid : string) : M string :=
  try_except (attr_name c parent_folder_moid)
    (λ e, match e with
          | ManagedObjectNotFound _ =>
              fail_json ("Could not find folder using moid " +:+ parent_folder_moid
                         +:+ " : " +:+ to_native e)
          | _ => raise e
          end).

Definition call_CreateFolder (p : moid) (name : string) : M moid :=
  _ ← tell (CallCreateFolder p name); answer (CreateFolder c p name).

Definition call_Destroy (f : moid) : M task :=
  _ ← tell (CallDestroy f); answer (Destroy c f).

Definition call_UnregisterAndDestroy (f : moid) : M task :=
  _ ← tell (CallUnregisterAndDestroy f); answer (UnregisterAndDestroy c f).

Definition call_wait_for_task (t : task) : M (bool * string) :=
  _ ← tell (CallWaitForTask t); answer (wait_for_task c t).

Definition results0 : gmap string value :=
  {[ "changed" := VBool false; "result" := VDict ∅ ]}.

Definition already_exists_under (folder_name parent_folder : string) : string :=
  "Folder " +:+ folder_name +:+ " already exists under parent folder " +:+ parent_folder.

(** *** [ensure], [state == 'present'] *)

(** "Check if the folder already exists": leaves through [exit_json] when
    the target is found, through [fail_json] when the parent is not, and
    otherwise hands [(p_folder_obj, parent_folder)] to the creation. *)
Definition present_lookup : M (option moid * option string) :=
  let datacenter_name := datacenter (params self) in
  let folder_type := folder_type (params self) in
  let folder_name := folder_name (params self) in
  let parent_folder := parent_folder (params self) in
  let parent_folder_moid := parent_folder_moid (params self) in
  let results := results0 in
  match nonempty parent_folder_moid with
  | Some parent_folder_moid =>
      let p_folder_obj := parent_folder_moid in
      parent_folder ← name_of_moid parent_folder_moid;
      child_folder_obj ← get_folder datacenter_name folder_name folder_type (Some p_folder_obj);
      match child_folder_obj with
      | Some _ =>
          exit_json (<["result" := VStr (already_exists_under folder_name parent_folder)]> results)
      | None => mret (Some p_folder_obj, Some parent_folder)
      end
  | None =>
      match nonempty parent_folder with
      | Some parent_folder =>
          if PyStr.contains "/" parent_folder then
            let parent_folder_parts := PyStr.split "/" (PyStr.strip "/" parent_folder) in
            p_folder_obj ← walk_parts datacenter_name folder_type parent_folder_parts None;
            child_folder_obj ← get_folder datacenter_name folder_name folder_type p_folder_obj;
            match child_folder_obj with
            | Some _ =>
                exit_json (<["result" := VStr (already_exists_under folder_name parent_folder)]> results)
            | None => mret (p_folder_obj, Some parent_folder)
            end
          else
            p_folder_obj ← get_folder datacenter_name parent_folder folder_type None;
            match p_folder_obj with
            | None => fail_json ("Parent folder " +:+ parent_folder +:+ " does not exist")
            | Some p =>
                child_folder_obj ← get_folder datacenter_name folder_name folder_type (Some p);
                match child_folder_obj with
                | Some child =>
                    results ← set_result_item "path" (get_folder_path c child) results;
                    exit_json (<["result" := VStr (already_exists_under folder_name parent_folder)]> results)
                | None => mret (Some p, Some parent_folder)
                end
            end
      | None =>
          folder_obj ← get_folder datacenter_name folder_name folder_type None;
          match folder_obj with
          | Some f =>
              results ← set_result_item "path" (get_folder_path c f) results;
              results ← set_result_item "msg" ("Folder " +:+ folder_name +:+ " already exists") results;
              exit_json results
          | None => mret (None, parent_folder)
          end
      end
  end.

(** "Create a new folder": the body of the [try].  The first condition is
    [(parent_folder or parent_folder_moid) and p_folder_obj], the second
    [not parent_folder and not p_folder_obj].  With a parent folder object
    the first is [parent_folder or parent_folder_moid] and the second is
    false; without one the first is false and the second is
    [not parent_folder].  When neither holds, [results] stays as it is. *)
Definition create_body (p_folder_obj : option moid) (parent_folder : option string)
  : M (gmap string value) :=
  let folder_type := folder_type (params self) in
  let folder_name := folder_name (params self) in
  let parent_folder_moid := parent_folder_moid (params self) in
  let results := results0 in
  match p_folder_obj with
  | Some p =>
      if PyStr.truthy parent_folder || PyStr.truthy parent_folder_moid then
        parent_folder ←
          (if PyStr.truthy parent_folder_moid
           then n ← attr_name c p; mret (Some n)
           else mret parent_folder);
        if check_mode self then
          let results :=
            <["msg" := VStr ("Folder '" +:+ folder_name +:+ "' of type '"
                             +:+ folder_type_str folder_type +:+ "' under '"
                             +:+ PyStr.fmt parent_folder +:+ "' will be created.")]> results in
          mret (<["changed" := VBool true]> results)
        else
          new_folder ← call_CreateFolder p folder_name;
          results ← set_result_item "path" (get_folder_path c new_folder) results;
          results ← set_result_item "msg"
                      ("Folder '" +:+ folder_name +:+ "' of type '"
                       +:+ folder_type_str folder_type +:+ "' under '"
                       +:+ PyStr.fmt parent_folder +:+ "' created successfully.") results;
          mret (<["changed" := VBool true]> results)
      else mret results
  | None =>
      if negb (PyStr.truthy parent_folder) then
        if check_mode self then
          let results :=
            <["msg" := VStr ("Folder '" +:+ folder_name +:+ "' of type '"
                             +:+ folder_type_str folder_type +:+ "' will be created.")]> results in
          mret (<["changed" := VBool true]> results)
        else
          new_folder ← call_CreateFolder (datacenter_folder_type self folder_type) folder_name;
          results ← set_result_item "msg"
                      ("Folder '" +:+ folder_name +:+ "' of type '"
                       +:+ folder_type_str folder_type +:+ "' created successfully.") results;
          results ← set_result_item "path" (get_folder_path c new_folder) results;
          mret (<["changed" := VBool true]> results)
      else mret results
  end.

(** The [except] clauses of the creation.  [CreateFolder], the one statement
    that raises [DuplicateName], comes before the first assignment to
    [results], so that handler sees [results] as initialised; the other two
    handlers do not read it. *)
Definition create_handler (e : exn) : M (gmap string value) :=
  let results := results0 in
  match e with
  | DuplicateName msg =>
      let results := <["changed" := VBool false]> results in
      mret (<["msg" := VStr ("Failed to create folder as another object has same name"
                             +:+ " in the same target folder : " +:+ msg)]> results)
  | InvalidName msg =>
      fail_json ("Failed to create folder as folder name is not a valid "
                 +:+ "entity name : " +:+ msg)
  | general_exc =>
      fail_json ("Failed to create folder due to generic"
                 +:+ " exception : " +:+ to_native general_exc +:+ " ")
  end.

Definition ensure_present : M unit :=
  '(p_folder_obj, parent_folder) ← present_lookup;
  results ← try_except (create_body p_folder_obj parent_folder) create_handler;
  exit_json results.

(** *** [ensure], [state == 'absent'] *)

(** The lookup of the folder to remove: [(folder_obj, parent_folder)]. *)
Definition absent_lookup : M (option moid * option string) :=
  let datacenter_name := datacenter (params self) in
  let folder_type := folder_type (params self) in
  let folder_name := folder_name (params self) in
  let parent_folder := parent_folder (params self) in
  let parent_folder_moid := parent_folder_moid (params self) in
  match nonempty parent_folder_moid with
  | Some parent_folder_moid =>
      let p_folder_obj := parent_folder_moid in
      parent_folder ← name_of_moid parent_folder_moid;
      folder_obj ← get_folder datacenter_name folder_name folder_type (Some p_folder_obj);
      mret (folder_obj, Some parent_folder)
  | None =>
      match nonempty parent_folder with
      | Some parent_folder =>
          if PyStr.contains "/" parent_folder then
            let parent_folder_parts := PyStr.split "/" (PyStr.strip "/" parent_folder) in
            p_folder_obj ← walk_parts datacenter_name folder_type parent_folder_parts None;
            folder_obj ← get_folder datacenter_name folder_name folder_type p_folder_obj;
            mret (folder_obj, Some parent_folder)
          else
            p_folder_obj ← get_folder datacenter_name parent_folder folder_type None;
            match p_folder_obj with
            | None => fail_json ("Parent folder " +:+ parent_folder +:+ " does not exist")
            | Some p =>
                folder_obj ← get_folder datacenter_name folder_name folder_type (Some p);
                mret (folder_obj, Some parent_folder)
            end
      | None =>
          folder_obj ← get_folder datacenter_name folder_name folder_type None;
          mret (folder_obj, parent_folder)
      end
  end.

(** The task of the removal and its wait: the [else] of
    [if self.module.check_mode], the same five lines in both arms of
    [if parent_folder]. *)
Definition destroy_and_wait (folder_obj : moid) : M (gmap string value) :=
  let results := results0 in
  task ← match folder_type (params self) with
         | vm => call_UnregisterAndDestroy folder_obj
         | _ => call_Destroy folder_obj
         end;
  '(changed, msg) ← call_wait_for_task task;
  let results := <["changed" := VBool changed]> results in
  mret (<["msg" := VStr msg]> results).

Definition remove_body (folder_obj : moid) (parent_folder : option string)
  : M (gmap string value) :=
  let folder_type := folder_type (params self) in
  let folder_name := folder_name (params self) in
  let results := results0 in
  if PyStr.truthy parent_folder then
    if check_mode self then
      let results := <["changed" := VBool true]> results in
      mret (<["msg" := VStr ("Folder '" +:+ folder_name +:+ "' of type '"
                             +:+ folder_type_str folder_type +:+ "' under '"
                             +:+ PyStr.fmt parent_folder +:+ "' will be removed.")]> results)
    else destroy_and_wait folder_obj
  else
    if check_mode self then
      let results := <["changed" := VBool true]> results in
      mret (<["msg" := VStr ("Folder '" +:+ folder_name +:+ "' of type '"
                             +:+ folder_type_str folder_type +:+ "' will be removed.")]> results)
    else destroy_and_wait folder_obj.

Definition remove_handler (e : exn) : M (gmap string value) :=
  match e with
  | ConcurrentAccess msg =>
      fail_json ("Failed to remove folder as another client"
                 +:+ " modified folder before this operation : " +:+ msg)
  | InvalidState msg =>
      fail_json ("Failed to remove folder as folder is in"
                 +:+ " invalid state : " +:+ msg)
  | gen_exec =>
      fail_json ("Failed to remove folder due to generic"
                 +:+ " exception " +:+ to_native gen_exec +:+ " ")
  end.

Definition ensure_absent : M unit :=
  '(folder_obj, parent_folder) ← absent_lookup;
  match folder_obj with
  | Some folder_obj =>
      results ← try_except (remove_body folder_obj parent_folder) remove_handler;
      exit_json results
  | None => exit_json results0
  end.

(** [VmwareFolderManager.ensure] *)
Definition ensure : M unit :=
  match state (params self) with
  | present => ensure_present
  | absent => ensure_absent
  end.

End Manager.

(** [self.module.check_mode] switched off, everything else kept. *)
Definition uncheck (self : VmwareFolderManager) : VmwareFolderManager :=
  {| content := content self; params := params self; check_mode := false;
     datacenter_folder_type := datacenter_folder_type self |}.

(** ** Reading the inventory without effects *)

Section Inventory.
Context (objs : gmap moid managed_object).

Definition name_of (o : moid) : option string := mo_name <$> objs !! o.

(** The child-type signature of a folder. *)
Definition signature (o : moid) : option (list string) := mo_childType <$> objs !! o.

Definition parent_of (o : moid) : option moid := objs !! o ≫= mo_parent.

(** The node two parent levels up. *)
Definition grandparent (o : moid) : option moid := parent_of o ≫= parent_of.

(** [anchor] is a proper ancestor of [o], looking at most [fuel] levels up. *)
Fixpoint is_below (fuel : nat) (anchor o : moid) : bool :=
  match fuel with
  | O => false
  | S fuel =>
      match parent_of o with
      | Some p => if decide (p = anchor) then true else is_below fuel anchor p
      | None => false
      end
  end.

(** A container view over a listed set of folders: all of them without an
    anchor (the view is then rooted at the inventory's root folder), those
    below the anchor otherwise.  The example inventories enumerate with it. *)
Definition view_below (folders : list moid) (anchor : option moid) : list moid :=
  match anchor with
  | None => folders
  | Some a => filter (λ o, is_below (length folders) a o = true) folders
  end.
End Inventory.

(** ** An example inventory

    Two datacenters under the root folder.  [DC0] has a [Shared] folder in
    its vm tree and one in its network tree, the chain [tier1/tier2], and a
    vm folder that bears the datacenter's own name with two levels below
    it; [DC1] has a vm folder [X]. *)

Module Sample.

Definition sig_root := ["Folder"; "Datacenter"].
Definition sig_vm := ["Folder"; "VirtualMachine"; "VirtualApp"].
Definition sig_host := ["Folder"; "ComputeResource"].
Definition sig_datastore := ["Folder"; "Datastore"; "StoragePod"].
Definition sig_network := ["Folder"; "Network"; "DistributedVirtualSwitch"].

Definition mo (n : string) (p : option moid) (ct : list string) : managed_object :=
  {| mo_name := n; mo_parent := p; mo_childType := ct |}.

Definition inventory : gmap moid managed_object :=
  list_to_map
    [ ("group-d1", mo "Datacenters" None sig_root);
      ("datacenter-2", mo "DC0" (Some "group-d1") []);
      ("group-v3", mo "vm" (Some "datacenter-2") sig_vm);
      ("group-h4", mo "host" (Some "datacenter-2") sig_host);
      ("group-s5", mo "datastore" (Some "datacenter-2") sig_datastore);
      ("group-n6", mo "network" (Some "datacenter-2") sig_network);
      ("group-n11", mo "Shared" (Some "group-n6") sig_network);
      ("group-v10", mo "Shared" (Some "group-v3") sig_vm);
      ("group-v12", mo "tier1" (Some "group-v3") sig_vm);
      ("group-v13", mo "tier2" (Some "group-v12") sig_vm);
      ("group-v30", mo "DC0" (Some "group-v3") sig_vm);
      ("group-v31", mo "sub" (Some "group-v30") sig_vm);
      ("group-v32", mo "deep" (Some "group-v31") sig_vm);
      ("datacenter-20", mo "DC1" (Some "group-d1") []);
      ("group-v21", mo "vm" (Some "datacenter-20") sig_vm);
      ("group-v22", mo "X" (Some "group-v21") sig_vm) ].

Definition folders : list moid :=
  [ "group-v3"; "group-h4"; "group-s5"; "group-n6"; "group-n11"; "group-v10";
    "group-v12"; "group-v13"; "group-v30"; "group-v31"; "group-v32";
    "group-v21"; "group-v22" ].

(** The platform answers of the example: creation gives [created] (a
    folder id or a fault), both removals start [task-1], and the task ends
    as [waited]. *)
Definition client (created : exn + moid) (waited : exn + (bool * string)) : Client :=
  {| objects := inventory;
     get_all_objs := view_below inventory folders;
     CreateFolder := λ _ _, created;
     Destroy := λ _, inr "task-1";
     UnregisterAndDestroy := λ _, inr "task-1";
     wait_for_task := λ _, waited;
     get_folder_path := λ o, "/path/of/" +:+ o |}.

Definition roots (t : FolderType) : moid :=
  match t with
  | vm => "group-v3"
  | host => "group-h4"
  | datastore => "group-s5"
  | network => "group-n6"
  end.

Definition manager (c : Client) (check : bool) (p : Params) : VmwareFolderManager :=
  {| content := c; params := p; check_mode := check; datacenter_folder_type := roots |}.

Definition ok_client : Client := client (inr "group-v99") (inr (true, "done")).

(** A request on the vm folders of [DC0]. *)
Definition request (st : State) (name : string) (pf id : option string) : Params :=
  {| state := st; datacenter := "DC0"; folder_type := vm; folder_name := name;
     parent_folder := pf; parent_folder_moid := id |}.

(** A client whose [CreateFolder] finds the name taken, and one whose task
    ends without success. *)
Definition taken_client : Client :=
  client (inl (DuplicateName "The name 'Shared' already exists.")) (inr (true, "done")).

Definition idle_client : Client := client (inr "group-v99") (inr (false, "task-msg")).

(** A manager that only looks folders up. *)
Definition finder : VmwareFolderManager :=
  manager ok_client false
    {| state := present; datacenter := "DC0"; folder_type := vm;
       folder_name := EmptyString; parent_folder := None; parent_folder_moid := None |}.

End Sample.

(** ** Vocabulary of the properties *)

(** A lookup step that logs nothing, stays in the module, and returns only
    folders with property [P]. *)
Definition quiet (P : moid → Prop) (m : M (option moid)) : Prop :=
  trace m = []
  ∧ (∀ out, final m ≠ Exit out)
  ∧ (∀ f, final m = Ret (Some f) → P f).

Section Vocabulary.
Context (self : VmwareFolderManager).

Let objs := objects (content self).

(** What the loop checks of a folder before returning it. *)
Definition accepted (datacenter_name folder_name : string) (folder_type : FolderType)
    (parent_folder : option moid) (f : moid) : Prop :=
  name_of objs f = Some folder_name
  ∧ is_Some (signature objs f)
  ∧ signature objs (datacenter_folder_type self folder_type) = signature objs f
  ∧ (parent_folder = None →
     ∃ gp, grandparent objs f = Some gp ∧ name_of objs gp = Some datacenter_name).

(** A candidate of the requested name and signature that hangs two levels
    below a node of another name. *)
Definition elsewhere (datacenter_name : string) (f : moid) : Prop :=
  ∃ gp dn, grandparent objs f = Some gp ∧ name_of objs gp = Some dn
           ∧ dn ≠ datacenter_name.

(** The path walk in the words of the specification: each segment is
    resolved in order by one lookup anchored on the folder resolved before
    it, and a segment that does not resolve is fatal. *)
Definition resolve_segment (datacenter_name : string) (folder_type : FolderType)
    (anchor : option moid) (segment : string) : M (option moid) :=
  found ← get_folder self datacenter_name segment folder_type anchor;
  match found with
  | None => fail_json ("Could not find folder " +:+ segment)
  | Some o => mret (Some o)
  end.

Definition sequential_resolution (datacenter_name : string) (folder_type : FolderType)
    (segments : list string) : M (option moid) :=
  foldl (λ previous segment,
           anchor ← previous; resolve_segment datacenter_name folder_type anchor segment)
        (mret None) segments.

(** [resolved_chain a segments b tr]: starting from anchor [a], every
    segment is found by its own lookup under the folder found before it;
    [b] is the last folder and [tr] the enumerations asked for. *)
Inductive resolved_chain (datacenter_name : string) (folder_type : FolderType)
  : option moid → list string → option moid → list call → Prop :=
| chain_nil a : resolved_chain datacenter_name folder_type a [] a []
| chain_cons a segment f rest b tr :
    final (get_folder self datacenter_name segment folder_type a) = Ret (Some f) →
    resolved_chain datacenter_name folder_type (Some f) rest b tr →
    resolved_chain datacenter_name folder_type a (segment :: rest) b
      (CallGetAllObjs a :: tr).

(** What [present_lookup] hands to the creation: with a parent folder
    object, a parent was asked for, and when it was asked for by id the
    object is there; without one, no parent was asked for. *)
Definition handed_over (x : option moid * option string) : Prop :=
  match x with
  | (Some a, pf) =>
      PyStr.truthy pf || PyStr.truthy (parent_folder_moid (params self)) = true
      ∧ (PyStr.truthy (parent_folder_moid (params self)) = true → is_Some (objs !! a))
  | (None, pf) =>
      PyStr.truthy pf = false
      ∧ PyStr.truthy (parent_folder_moid (params self)) = false
  end.

(** The folder on which [CreateFolder] is called. *)
Definition anchor_of (p_folder_obj : option moid) : moid :=
  match p_folder_obj with
  | Some a => a
  | None => datacenter_folder_type self (folder_type (params self))
  end.

(** The removal of the category: unregister and destroy for vm, destroy
    for the others. *)
Definition removal_call (folder_obj : moid) : call :=
  match folder_type (params self) with
  | vm => CallUnregisterAndDestroy folder_obj
  | _ => CallDestroy folder_obj
  end.

Definition removal_answer (folder_obj : moid) : exn + task :=
  match folder_type (params self) with
  | vm => UnregisterAndDestroy (content self) folder_obj
  | _ => Destroy (content self) folder_obj
  end.

End Vocabulary.

Definition is_lookup (c : call) : bool :=
  match c with
  | CallGetAllObjs _ => true
  | _ => false
  end.

(** A computation that only enumerates folders. *)
Definition only_lookups {A} (m : M A) : Prop :=
  Forall (λ c, is_lookup c = true) (trace m).

(** Whether a trace holds a create, destroy or unregister call. *)
Definition mutates (tr : list call) : bool := existsb is_mutation tr.

(** Postconditions: [R] on a returned value, [E] on a module exit; a
    raised exception is left to the handlers. *)
Definition ends {A} (R : A → Prop) (E : outcome → Prop) (m : M A) : Prop :=
  match final m with
  | Ret a => R a
  | Raise _ => True
  | Exit o => E o
  end.

(** The [changed] entry of a payload, when it is a boolean. *)
Definition changed_flag (r : gmap string value) : option bool :=
  match r !! "changed" with
  | Some (VBool b) => Some b
  | _ => None
  end.

(** Whether a payload carries a message: a top-level [msg], a [result]
    that is a string, or a [msg] inside [result]. *)
Definition has_message (r : gmap string value) : bool :=
  match r !! "msg", r !! "result" with
  | Some _, _ => true
  | None, Some (VStr _) => true
  | None, Some (VDict d) => bool_decide (is_Some (d !! "msg"))
  | None, _ => false
  end.

(** The payloads [ensure] builds. *)
Definition created_results (path msg : string) : gmap string value :=
  <["changed" := VBool true]>
    (<["result" := VDict (<["msg" := msg]> (<["path" := path]> ∅))]> results0).

Definition duplicate_results (text : string) : gmap string value :=
  <["msg" := VStr ("Failed to create folder as another object has same name"
                   +:+ " in the same target folder : " +:+ text)]>
    (<["changed" := VBool false]> results0).

Definition dry_run_results (msg : string) : gmap string value :=
  <["changed" := VBool true]> (<["msg" := VStr msg]> results0).

Definition removed_results (changed : bool) (msg : string) : gmap string value :=
  <["msg" := VStr msg]> (<["changed" := VBool changed]> results0).

(** The exit of [present_lookup] on a folder that is there: unchanged, with
    the message in [result], and the path too when [result] is a
    dictionary. *)
Definition reports_existing (o : outcome) : Prop :=
  match o with
  | ExitJson r =>
      changed_flag r = Some false ∧ r !! "msg" = None ∧ has_message r = true
      ∧ (∀ d, r !! "result" = Some (VDict d) → is_Some (d !! "path"))
  | FailJson _ => True
  end.

(** The removal as the specification words it, for the folder [f] that the
    lookup found after the enumerations [tr]: the call of the category, its
    task awaited, and the report derived from how the task ended. *)
Definition removal_as_specified (self : VmwareFolderManager) (f : moid)
    (tr : list call) : Prop :=
  (removal_call self f = CallUnregisterAndDestroy f ↔ folder_type (params self) = vm)
  ∧ (removal_call self f = CallDestroy f ↔ folder_type (params self) ≠ vm)
  ∧ trace (ensure self)
    = tr ++ removal_call self f
         :: match removal_answer self f with
            | inr t => [CallWaitForTask t]
            | inl _ => []
            end
  ∧ (∀ t changed msg,
       removal_answer self f = inr t →
       wait_for_task (content self) t = inr (changed, msg) →
       final (ensure self) = Exit (ExitJson (removed_results changed msg))).


(** A parent was asked for, by name, by path or by id. *)
Definition parent_given (p : Params) : bool :=
  PyStr.truthy (parent_folder p) || PyStr.truthy (parent_folder_moid p).

(** The invocations that end in the lookup of [state=present] on a target
    that is already there under the parent asked for. *)
Definition found_under_parent (self : VmwareFolderManager) : Prop :=
  state (params self) = present
  ∧ parent_given (params self) = true
  ∧ ∃ tr r, present_lookup self = (tr, Exit (ExitJson r)).

(** The payload of those exits: the initial payload with the sentence as
    [result]. *)
Definition existing_under_results (folder_name parent_folder : string)
  : gmap string value :=
  <["result" := VStr (already_exists_under folder_name parent_folder)]> results0.





(** The check-mode contract as the specification words it, for one
    invocation: no mutation, a message, and the [changed] flag of the same
    invocation outside check mode. *)
Definition check_mode_as_specified (self : VmwareFolderManager) : Prop :=
  mutates (trace (ensure self)) = false
  ∧ ∀ r, final (ensure self) = Exit (ExitJson r) →
      has_message r = true
      ∧ ∀ r', final (ensure (uncheck self)) = Exit (ExitJson r') →
              changed_flag r = changed_flag r'.

(** ** The entry point

    [main] and [VmwareFolderManager.__init__].  [AnsibleModule] has parsed
    the arguments: its [params], the connection's [hostname] and the check
    mode are what the module object holds.  [find_datacenter_by_name] and
    [is_vcenter] live in the collection's [module_utils] and are taken as
    they answer; [category_folder d] gives the four folders of the
    datacenter object [d] ([vmFolder], [hostFolder], [datastoreFolder],
    [networkFolder]). *)

Record Session := {
  session_content : Client;
  find_datacenter_by_name : string → option moid;
  category_folder : moid → FolderType → moid;
  is_vcenter : bool;
}.

Record AnsibleModule := {
  module_params : Params;
  hostname : option string;
  module_check_mode : bool;
}.

(** [VmwareFolderManager.__init__] *)
Definition init (s : Session) (module : AnsibleModule) : M VmwareFolderManager :=
  let datacenter_name := datacenter (module_params module) in
  match find_datacenter_by_name s datacenter_name with
  | None => fail_json ("Failed to find datacenter " +:+ datacenter_name)
  | Some datacenter_obj =>
      mret {| content := session_content s;
              params := module_params module;
              check_mode := module_check_mode module;
              datacenter_folder_type := category_folder s datacenter_obj |}
  end.

(** [main], from the length check on.  [len] counts the characters of the
    name, not its bytes. *)
Definition main (s : Session) (module : AnsibleModule) : M unit :=
  if 79 <? PyStr.len (folder_name (module_params module)) then
    fail_json "Failed to manage folder as folder_name can only contain 80 characters."
  else
    vcenter_folder_mgr ← init s module;
    if negb (is_vcenter s) then
      fail_json ("Module vcenter_folder is meant for vCenter, hostname "
                 +:+ PyStr.fmt (hostname module) +:+ " is not vCenter server.")
    else ensure vcenter_folder_mgr.

(** ** Further vocabulary *)

(** The checks of [get_folder] on one enumerated folder, read off the
    inventory: the name, the signature of the category's root, and without
    anchor the name two levels up. *)
Definition passes (self : VmwareFolderManager) (datacenter_name folder_name : string)
    (folder_type : FolderType) (parent_folder : option moid) (f : moid) : bool :=
  let objs := objects (content self) in
  bool_decide (name_of objs f = Some folder_name)
  && bool_decide (signature objs (datacenter_folder_type self folder_type)
                  = signature objs f)
  && match parent_folder with
     | Some _ => true
     | None => bool_decide (grandparent objs f ≫= name_of objs = Some datacenter_name)
     end.

(** An enumeration on which the reads of [get_folder] do not raise: the
    category's root and the enumerated folders are there, and without
    anchor a folder of the name and signature has a named node two levels
    up. *)
Definition readable (self : VmwareFolderManager) (folder_name : string)
    (folder_type : FolderType) (parent_folder : option moid) (l : list moid) : Prop :=
  let objs := objects (content self) in
  is_Some (objs !! datacenter_folder_type self folder_type)
  ∧ Forall (λ f, is_Some (objs !! f)
                 ∧ (parent_folder = None →
                    name_of objs f = Some folder_name →
                    signature objs (datacenter_folder_type self folder_type)
                    = signature objs f →
                    is_Some (grandparent objs f ≫= name_of objs))) l.

(** The same invocation with another [parent_folder] or
    [parent_folder_moid]. *)
Definition with_parent_folder (pf : option string) (self : VmwareFolderManager)
  : VmwareFolderManager :=
  {| content := content self;
     params := {| state := state (params self);
                  datacenter := datacenter (params self);
                  folder_type := folder_type (params self);
                  folder_name := folder_name (params self);
                  parent_folder := pf;
                  parent_folder_moid := parent_folder_moid (params self) |};
     check_mode := check_mode self;
     datacenter_folder_type := datacenter_folder_type self |}.

Definition with_parent_folder_moid (id : option string) (self : VmwareFolderManager)
  : VmwareFolderManager :=
  {| content := content self;
     params := {| state := state (params self);
                  datacenter := datacenter (params self);
                  folder_type := folder_type (params self);
                  folder_name := folder_name (params self);
                  parent_folder := parent_folder (params self);
                  parent_folder_moid := id |};
     check_mode := check_mode self;
     datacenter_folder_type := datacenter_folder_type self |}.

(** The end of the module after a phase that returns the payload. *)
Definition finish (r : res (gmap string value)) : res unit :=
  match r with
  | Ret results => Exit (ExitJson results)
  | Raise e => Raise e
  | Exit o => Exit o
  end.

(** The calls of a removal: the call of the category and, when it gave a
    task, the wait for it. *)
Definition removal_calls (self : VmwareFolderManager) (f : moid) : list call :=
  removal_call self f
  :: match removal_answer self f with
     | inr t => [CallWaitForTask t]
     | inl _ => []
     end.

(** [sep.join(fields)] *)
Fixpoint join (sep : ascii) (fields : list string) : string :=
  match fields with
  | [] => EmptyString
  | [x] => x
  | x :: rest => x +:+ String sep (join sep rest)
  end.

(** [c * n]: the character [c], [n] times. *)
Fixpoint run (c : ascii) (n : nat) : string :=
  match n with
  | O => EmptyString
  | S n => String c (run c n)
  end.

(** Whether a string has no character but [c]. *)
Fixpoint only_char (c : ascii) (s : string) : bool :=
  match s with
  | EmptyString => true
  | String a s' => Ascii.eqb a c && only_char c s'
  end.

(** The last character of a string. *)
Fixpoint last_char (s : string) : option ascii :=
  match s with
  | EmptyString => None
  | String a EmptyString => Some a
  | String _ s' => last_char s'
  end.

Definition first_char (s : string) : option ascii :=
  match s with
  | EmptyString => None
  | String a _ => Some a
  end.

(** The number of enumerations an invocation may ask for, by the form of
    its parent: one for the target, and before it none for an id, one for a
    name, one per segment for a path. *)
Definition lookup_budget (p : Params) : nat :=
  match nonempty (parent_folder_moid p) with
  | Some _ => 1
  | None =>
      match nonempty (parent_folder p) with
      | Some pf =>
          if PyStr.contains "/" pf
          then length (PyStr.split "/" (PyStr.strip "/" pf)) + 1
          else 2
      | None => 1
      end
  end.

(** ** An example session *)

Module SampleSession.

Definition find (name : string) : option moid :=
  if decide (name = "DC0") then Some "datacenter-2"
  else if decide (name = "DC1") then Some "datacenter-20"
  else None.

Definition folders_of (d : moid) (t : FolderType) : moid :=
  if decide (d = "datacenter-2") then Sample.roots t
  else match t with
       | vm => "group-v21"
       | host => "group-h23"
       | datastore => "group-s24"
       | network => "group-n25"
       end.

Definition session (c : Client) (vcenter : bool) : Session :=
  {| session_content := c; find_datacenter_by_name := find;
     category_folder := folders_of; is_vcenter := vcenter |}.

Definition module (p : Params) (check : bool) : AnsibleModule :=
  {| module_params := p; hostname := Some "vcenter.example.org";
     module_check_mode := check |}.

(** A name of 79 characters and one of 80. *)
Definition name79 : string :=
  "0123456789012345678901234567890123456789012345678901234567890123456789012345678".

Definition name80 : string := String "x" name79.

(** Names of accented letters, two bytes each: one of 40 characters on 80
    bytes, one of 79 characters and one of 80. *)
Definition accented40 : string := "éééééééééééééééééééééééééééééééééééééééé".

Definition accented79 : string :=
  "ééééééééééééééééééééééééééééééééééééééé" +:+ accented40.

Definition accented80 : string := "é" +:+ accented79.

End SampleSession.

(** * Supporting lemmas *)

(** ** The string operations on examples *)

Example strip_split_path :
  PyStr.split "/" (PyStr.strip "/" "/folder1/folder2/") = ["folder1"; "folder2"].
Proof. reflexivity. Qed.

Example split_keeps_empty_fields :
  PyStr.split "/" (PyStr.strip "/" "a//b") = ["a"; EmptyString; "b"]
  ∧ PyStr.split "/" (PyStr.strip "/" "///") = [EmptyString].
Proof. by split. Qed.

(** ** The control operations *)

Section Control.
Context {A B : Type}.

Lemma bind_Ret (tr : list call) (a : A) (f : A → M B) :
  ((tr, Ret a) ≫= f) = (tr ++ trace (f a), final (f a)).
Proof. unfold mbind, M_bind, trace, final. by destruct (f a). Qed.

Lemma bind_Raise (tr : list call) (e : exn) (f : A → M B) :
  ((tr, Raise e) ≫= f) = (tr, Raise e).
Proof. done. Qed.

Lemma bind_Exit (tr : list call) (o : outcome) (f : A → M B) :
  ((tr, Exit o) ≫= f) = (tr, Exit o).
Proof. done. Qed.

Lemma bind_pure (a : A) (f : A → M B) : (([], Ret a) ≫= f) = f a.
Proof. rewrite bind_Ret. by destruct (f a). Qed.

Lemma bind_mret (a : A) (f : A → M B) : (mret a ≫= f) = f a.
Proof. apply bind_pure. Qed.

(** The trace of a sequence starts with the trace of its first part. *)
Lemma trace_bind_prefix (m : M A) (f : A → M B) :
  ∃ rest, trace (m ≫= f) = trace m ++ rest.
Proof.
  destruct m as [tr [a|e|o]]; simpl.
  - destruct (f a) as [tr' r]. by exists tr'.
  - exists []. by rewrite app_nil_r.
  - exists []. by rewrite app_nil_r.
Qed.
End Control.

Lemma bind_assoc {A B C} (m : M A) (f : A → M B) (g : B → M C) :
  ((m ≫= f) ≫= g) = (m ≫= λ a, f a ≫= g).
Proof.
  destruct m as [tr [a|e|o]]; try done.
  unfold mbind, M_bind.
  destruct (f a) as [tr1 [b|e|o]]; try done.
  destruct (g b) as [tr2 r]. by rewrite app_assoc.
Qed.

(** ** Attribute reads against the inventory *)

Section AttributeFacts.
Context (c : Client).

Lemma attr_name_eq (o : moid) :
  attr_name c o =
  match objects c !! o with
  | Some m => ([], Ret (mo_name m))
  | None => ([], Raise (ManagedObjectNotFound o))
  end.
Proof. unfold attr_name, get_object. by destruct (objects c !! o). Qed.

Lemma attr_childType_eq (o : moid) :
  attr_childType c o =
  match objects c !! o with
  | Some m => ([], Ret (mo_childType m))
  | None => ([], Raise (ManagedObjectNotFound o))
  end.
Proof. unfold attr_childType, get_object. by destruct (objects c !! o). Qed.

Lemma attr_parent_eq (o : moid) :
  attr_parent c o =
  match objects c !! o with
  | Some m => ([], Ret (mo_parent m))
  | None => ([], Raise (ManagedObjectNotFound o))
  end.
Proof. unfold attr_parent, get_object. by destruct (objects c !! o). Qed.

(** Reading [o.parent.parent.name] logs nothing, never leaves the module,
    and when it returns it returns the name of the grandparent. *)
Lemma attr_parent_parent_name_spec (o : moid) :
  ∃ r, attr_parent_parent_name c o = ([], r) ∧
       (∀ out, r ≠ Exit out) ∧
       (∀ n, r = Ret n → ∃ gp, grandparent (objects c) o = Some gp
                               ∧ name_of (objects c) gp = Some n).
Proof.
  unfold attr_parent_parent_name, grandparent, parent_of, name_of.
  rewrite attr_parent_eq.
  destruct (objects c !! o) as [m|] eqn:Ho; simpl; [|by eexists].
  destruct (mo_parent m) as [p|] eqn:Hp; simpl; [|by eexists].
  rewrite attr_parent_eq.
  destruct (objects c !! p) as [mp|] eqn:Hmp; simpl; [|by eexists].
  destruct (mo_parent mp) as [pp|] eqn:Hpp; simpl; [|by eexists].
  rewrite attr_name_eq.
  destruct (objects c !! pp) as [mpp|] eqn:Hmpp; simpl; [|by eexists].
  eexists; split; [done|]. split; [done|].
  intros n [= <-]. exists pp. by rewrite Hmpp.
Qed.

(** When the grandparent is there, the read returns its name. *)
Lemma attr_parent_parent_name_Some (o gp : moid) (n : string) :
  grandparent (objects c) o = Some gp → name_of (objects c) gp = Some n →
  attr_parent_parent_name c o = ([], Ret n).
Proof.
  unfold attr_parent_parent_name, grandparent, parent_of, name_of.
  rewrite attr_parent_eq.
  destruct (objects c !! o) as [m|]; simpl; [|done].
  destruct (mo_parent m) as [p|]; simpl; [|done].
  rewrite attr_parent_eq.
  destruct (objects c !! p) as [mp|]; simpl; [|done].
  destruct (mo_parent mp) as [pp|]; simpl; [|done].
  intros [= ->]. rewrite attr_name_eq.
  destruct (objects c !! gp) as [mpp|]; simpl; [|done].
  by intros [= ->].
Qed.
End AttributeFacts.

(** ** Facts about [get_folder] *)

Section GetFolderFacts.
Context (self : VmwareFolderManager).

Let objs := objects (content self).

Lemma quiet_raise P e : quiet P ([], Raise e).
Proof. by repeat split. Qed.

Lemma quiet_mono (P Q : moid → Prop) m : (∀ f, P f → Q f) → quiet P m → quiet Q m.
Proof. intros HPQ (? & ? & HP). repeat split; auto. Qed.

Lemma get_folder_loop_spec dc n ft anchor (l : list moid) :
  quiet (λ f, f ∈ l ∧ accepted self dc n ft anchor f) (get_folder_loop self dc n ft anchor l).
Proof.
  induction l as [|folder rest IH]; simpl.
  - split; [done|split; [done|]]. by intros f [=].
  - apply (quiet_mono _ (λ f, f ∈ folder :: rest ∧ accepted self dc n ft anchor f)) in IH;
      [|intros f [? ?]; split; [by right|done]].
    destruct anchor as [a|].
    + rewrite attr_name_eq.
      destruct (objects (content self) !! folder) as [m|] eqn:Hm;
        [cbv beta iota; rewrite bind_pure|by apply quiet_raise].
      destruct (decide (mo_name m = n)) as [Hn|]; [|done].
      rewrite !attr_childType_eq, Hm.
      destruct (objects (content self) !! datacenter_folder_type self ft) as [mr|] eqn:Hmr;
        [cbv beta iota; rewrite bind_pure|by apply quiet_raise].
      rewrite bind_pure.
      destruct (decide (mo_childType mr = mo_childType m)) as [Hsig|]; [|done].
      split; [done|split; [done|]].
      intros f [= <-]. split; [by left|].
      unfold accepted, name_of, signature, objs. rewrite Hm, Hmr. simpl.
      by rewrite Hn, Hsig.
    + rewrite attr_name_eq.
      destruct (objects (content self) !! folder) as [m|] eqn:Hm;
        [cbv beta iota; rewrite bind_pure|by apply quiet_raise].
      destruct (decide (mo_name m = n)) as [Hn|]; [|done].
      rewrite !attr_childType_eq, Hm.
      destruct (objects (content self) !! datacenter_folder_type self ft) as [mr|] eqn:Hmr;
        [cbv beta iota; rewrite bind_pure|by apply quiet_raise].
      rewrite bind_pure.
      destruct (decide (mo_childType mr = mo_childType m)) as [Hsig|]; [|done].
      destruct (attr_parent_parent_name_spec (content self) folder)
        as (rp & -> & Hpexit & Hpret).
      destruct rp as [ppn|e|out];
        [rewrite bind_pure|by apply quiet_raise|by destruct (Hpexit out)].
      destruct (decide (ppn = dc)) as [Hdc|]; [|done].
      split; [done|split; [done|]].
      intros f [= <-]. split; [by left|].
      unfold accepted, name_of, signature, objs. rewrite Hm, Hmr. simpl.
      rewrite Hn, Hsig. repeat split; [done|]. intros _.
      destruct (Hpret ppn eq_refl) as (gp & Hgp & Hname). exists gp. by rewrite <- Hdc.
Qed.

Lemma get_folder_eq dc n ft anchor :
  get_folder self dc n ft anchor =
  (CallGetAllObjs anchor :: trace (get_folder_loop self dc n ft anchor
                                    (get_all_objs (content self) anchor)),
   final (get_folder_loop self dc n ft anchor (get_all_objs (content self) anchor))).
Proof. unfold get_folder, tell. by rewrite bind_Ret. Qed.

(** One lookup is one enumeration under the anchor, and what it returns was
    enumerated and passed the checks. *)
Lemma get_folder_spec dc n ft anchor :
  trace (get_folder self dc n ft anchor) = [CallGetAllObjs anchor]
  ∧ (∀ out, final (get_folder self dc n ft anchor) ≠ Exit out)
  ∧ (∀ f, final (get_folder self dc n ft anchor) = Ret (Some f) →
          f ∈ get_all_objs (content self) anchor ∧ accepted self dc n ft anchor f).
Proof.
  rewrite get_folder_eq.
  destruct (get_folder_loop_spec dc n ft anchor (get_all_objs (content self) anchor))
    as (Htr & Hexit & Hfound).
  simpl. by rewrite Htr.
Qed.

Lemma get_folder_shape dc n ft anchor :
  get_folder self dc n ft anchor =
  ([CallGetAllObjs anchor], final (get_folder self dc n ft anchor)).
Proof.
  destruct (get_folder_spec dc n ft anchor) as (Htr & _).
  destruct (get_folder self dc n ft anchor) as [tr r]. simpl in *. by subst.
Qed.

Lemma get_folder_loop_none dc n ft (l : list moid) :
  is_Some (objs !! datacenter_folder_type self ft) →
  Forall (λ f, is_Some (objs !! f)
               ∧ (name_of objs f = Some n →
                  signature objs (datacenter_folder_type self ft) = signature objs f →
                  elsewhere self dc f)) l →
  get_folder_loop self dc n ft None l = ([], Ret None).
Proof.
  intros [mr Hmr] Hall. unfold objs in Hmr.
  induction Hall as [|folder rest [[m Hm] Hother] _ IH]; simpl; [done|].
  unfold objs in Hm.
  rewrite attr_name_eq, Hm, bind_pure.
  destruct (decide (mo_name m = n)) as [Hn|]; [|done].
  rewrite !attr_childType_eq, Hm, Hmr, !bind_pure.
  destruct (decide (mo_childType mr = mo_childType m)) as [Hsig|]; [|done].
  destruct Hother as (gp & dn & Hgp & Hdn & Hne).
  { unfold name_of, objs. by rewrite Hm; simpl; rewrite Hn. }
  { unfold signature, objs. by rewrite Hm, Hmr; simpl; rewrite Hsig. }
  rewrite (attr_parent_parent_name_Some _ _ _ _ Hgp Hdn), bind_pure.
  by destruct (decide (dn = dc)).
Qed.

End GetFolderFacts.

(** ** The path walk *)

Lemma bind_ext {A B} (m : M A) (f g : A → M B) :
  (∀ a, f a = g a) → (m ≫= f) = (m ≫= g).
Proof. intros Hfg. destruct m as [tr [a|e|o]]; try done. by rewrite !bind_Ret, Hfg. Qed.

Lemma split_not_nil (ch : ascii) (s : string) : PyStr.split ch s ≠ [].
Proof.
  destruct s as [|a s]; simpl; [done|].
  destruct (Ascii.eqb a ch); [done|]. by destruct (PyStr.split ch s).
Qed.

Lemma prefix_bind {A B} (pre : list call) (m : M A) (f : A → M B) :
  (∃ rest, trace m = pre ++ rest) → ∃ rest, trace (m ≫= f) = pre ++ rest.
Proof.
  intros [rest Hm]. destruct (trace_bind_prefix m f) as [rest' ->].
  exists (rest ++ rest'). by rewrite Hm, app_assoc.
Qed.

Lemma prefix_Ret {A B} (tr pre : list call) (a : A) (f : A → M B) :
  (∃ rest, trace (f a) = pre ++ rest) →
  ∃ rest, trace ((tr, Ret a) ≫= f) = (tr ++ pre) ++ rest.
Proof.
  intros [rest Hf]. rewrite bind_Ret. simpl. exists rest. by rewrite Hf, app_assoc.
Qed.

Section PathWalkFacts.
Context (self : VmwareFolderManager) (dc : string) (ft : FolderType).

Let step (previous : M (option moid)) (segment : string) : M (option moid) :=
  anchor ← previous; resolve_segment self dc ft anchor segment.

Lemma foldl_step_bind (segs : list string) (m : M (option moid)) :
  foldl step m segs = (m ≫= λ a, foldl step (mret a) segs).
Proof.
  revert m. induction segs as [|s rest IH]; intros m; cbn [foldl].
  - destruct m as [tr [a|e|o]]; try done.
    rewrite bind_Ret. simpl. by rewrite app_nil_r.
  - rewrite IH. unfold step at 2. rewrite bind_assoc.
    apply bind_ext; intros a.
    rewrite (IH (step (mret a) s)).
    assert (Hs : step (mret a) s = resolve_segment self dc ft a s)
      by apply (bind_mret a (λ anchor, resolve_segment self dc ft anchor s)).
    by rewrite Hs.
Qed.

(** The loop of [ensure] is the sequence of single-segment resolutions. *)
Lemma walk_parts_sequential (segs : list string) (a : option moid) :
  walk_parts self dc ft segs a = foldl step (mret a) segs.
Proof.
  revert a. induction segs as [|s rest IH]; intros a; cbn [foldl walk_parts]; [done|].
  rewrite foldl_step_bind.
  assert (Hs : step (mret a) s = resolve_segment self dc ft a s)
      by apply (bind_mret a (λ anchor, resolve_segment self dc ft anchor s)).
  rewrite Hs. unfold resolve_segment. rewrite bind_assoc.
  apply bind_ext; intros [o|].
  - by rewrite bind_mret, IH.
  - done.
Qed.

Lemma walk_parts_chain (segs : list string) (a b : option moid) (tr : list call) :
  resolved_chain self dc ft a segs b tr →
  walk_parts self dc ft segs a = (tr, Ret b).
Proof.
  induction 1 as [a|a s f rest b tr Hf _ IH]; simpl; [done|].
  rewrite get_folder_shape, Hf, bind_Ret, IH. done.
Qed.

(** A segment that does not resolve stops the walk at once, with its own
    name in the message, after one lookup per segment so far. *)
Lemma walk_parts_break (pre post : list string) (x : string)
    (a0 a : option moid) (tr : list call) :
  resolved_chain self dc ft a0 pre a tr →
  final (get_folder self dc x ft a) = Ret None →
  walk_parts self dc ft (pre ++ x :: post) a0
  = (tr ++ [CallGetAllObjs a], Exit (FailJson ("Could not find folder " +:+ x))).
Proof.
  intros Hchain Hx.
  induction Hchain as [a|a s f rest b tr Hf _ IH]; simpl.
  - by rewrite get_folder_shape, Hx, bind_Ret.
  - rewrite get_folder_shape, Hf, bind_Ret, (IH Hx). done.
Qed.

(** A walk over at least one segment returns a folder when it returns. *)
Lemma walk_parts_Some (segs : list string) (a b : option moid) :
  segs ≠ [] → final (walk_parts self dc ft segs a) = Ret b → is_Some b.
Proof.
  revert a. induction segs as [|s rest IH]; intros a Hne; [done|]. simpl.
  rewrite get_folder_shape.
  destruct (final (get_folder self dc s ft a)) as [[o|]|e|out]; try done.
  rewrite bind_Ret. simpl. destruct rest as [|s' rest'].
  - simpl. intros [= <-]. by eexists.
  - by apply IH.
Qed.

End PathWalkFacts.

(** ** Rules for traces and postconditions *)

Lemma only_lookups_bind {A B} (m : M A) (f : A → M B) :
  only_lookups m → (∀ a, only_lookups (f a)) → only_lookups (m ≫= f).
Proof.
  unfold only_lookups. intros Hm Hf.
  destruct m as [tr [a|e|o]]; [|done|done].
  rewrite bind_Ret. simpl in *. apply Forall_app. split; [done|apply Hf].
Qed.

Lemma only_lookups_silent {A} (m : M A) : trace m = [] → only_lookups m.
Proof. unfold only_lookups. intros ->. constructor. Qed.

Lemma ends_bind {A B} (R' : A → Prop) (R : B → Prop) (E : outcome → Prop)
    (m : M A) (f : A → M B) :
  ends R' E m → (∀ a, R' a → ends R E (f a)) → ends R E (m ≫= f).
Proof.
  unfold ends. intros Hm Hf.
  destruct m as [tr [a|e|o]]; [|done|done].
  rewrite bind_Ret. simpl in *. by apply Hf.
Qed.

Lemma ends_get_folder (self : VmwareFolderManager) dc n ft anchor (E : outcome → Prop) :
  ends (λ _, True) E (get_folder self dc n ft anchor).
Proof.
  unfold ends. destruct (get_folder_spec self dc n ft anchor) as (_ & Hexit & _).
  destruct (final (get_folder self dc n ft anchor)) as [a|e|o]; [done|done|].
  by destruct (Hexit o).
Qed.

Lemma get_folder_only_lookups (self : VmwareFolderManager) dc n ft anchor :
  only_lookups (get_folder self dc n ft anchor).
Proof. unfold only_lookups. rewrite get_folder_shape. simpl. by repeat constructor. Qed.

Lemma walk_parts_only_lookups (self : VmwareFolderManager) dc ft segs a :
  only_lookups (walk_parts self dc ft segs a).
Proof.
  revert a. induction segs as [|s rest IH]; intros a; simpl.
  - by apply only_lookups_silent.
  - apply only_lookups_bind; [apply get_folder_only_lookups|].
    intros [o|]; [apply IH|by apply only_lookups_silent].
Qed.

Lemma name_of_moid_eq (self : VmwareFolderManager) (id : moid) :
  name_of_moid self id =
  match objects (content self) !! id with
  | Some m => ([], Ret (mo_name m))
  | None => ([], Exit (FailJson ("Could not find folder using moid " +:+ id
                                 +:+ " : " +:+ id)))
  end.
Proof.
  unfold name_of_moid. rewrite attr_name_eq.
  destruct (objects (content self) !! id); reflexivity.
Qed.

Lemma nonempty_Some (o : option string) (s : string) :
  nonempty o = Some s → o = Some s ∧ PyStr.truthy o = true.
Proof. unfold nonempty. destruct (PyStr.truthy o) eqn:Ht; [|done]. by intros ->. Qed.

Lemma nonempty_None (o : option string) : nonempty o = None → PyStr.truthy o = false.
Proof. unfold nonempty. destruct (PyStr.truthy o) eqn:Ht; [|done]. by intros ->. Qed.

Ltac case_object_as m H :=
  match goal with
  | |- context [@lookup ?K ?V ?T ?I ?o (objects ?c)] =>
      destruct (@lookup K V T I o (objects c)) as [m|] eqn:H
  end.

(** ** The lookups of [ensure] *)

(** Case on the next read of the object store. *)
Ltac case_object :=
  match goal with
  | |- context [@lookup ?K ?V ?T ?I ?o (objects ?c)] =>
      destruct (@lookup K V T I o (objects c)) eqn:?
  end.

Section LookupFacts.
Context (self : VmwareFolderManager).

Lemma present_lookup_only_lookups : only_lookups (present_lookup self).
Proof.
  unfold present_lookup. cbv zeta.
  destruct (nonempty (parent_folder_moid (params self))) as [id|].
  - rewrite name_of_moid_eq.
    case_object; [|by apply only_lookups_silent].
    rewrite bind_pure.
    apply only_lookups_bind; [apply get_folder_only_lookups|].
    by intros [?|]; apply only_lookups_silent.
  - destruct (nonempty (parent_folder (params self))) as [pf|].
    + destruct (PyStr.contains "/" pf).
      * apply only_lookups_bind; [apply walk_parts_only_lookups|]. intros p.
        apply only_lookups_bind; [apply get_folder_only_lookups|].
        by intros [?|]; apply only_lookups_silent.
      * apply only_lookups_bind; [apply get_folder_only_lookups|].
        intros [p|]; [|by apply only_lookups_silent].
        apply only_lookups_bind; [apply get_folder_only_lookups|].
        by intros [?|]; apply only_lookups_silent.
    + apply only_lookups_bind; [apply get_folder_only_lookups|].
      by intros [?|]; apply only_lookups_silent.
Qed.

Lemma absent_lookup_only_lookups : only_lookups (absent_lookup self).
Proof.
  unfold absent_lookup. cbv zeta.
  destruct (nonempty (parent_folder_moid (params self))) as [id|].
  - rewrite name_of_moid_eq.
    case_object; [|by apply only_lookups_silent].
    rewrite bind_pure.
    apply only_lookups_bind; [apply get_folder_only_lookups|].
    by intros ?; apply only_lookups_silent.
  - destruct (nonempty (parent_folder (params self))) as [pf|].
    + destruct (PyStr.contains "/" pf).
      * apply only_lookups_bind; [apply walk_parts_only_lookups|]. intros p.
        apply only_lookups_bind; [apply get_folder_only_lookups|].
        by intros ?; apply only_lookups_silent.
      * apply only_lookups_bind; [apply get_folder_only_lookups|].
        intros [p|]; [|by apply only_lookups_silent].
        apply only_lookups_bind; [apply get_folder_only_lookups|].
        by intros ?; apply only_lookups_silent.
    + apply only_lookups_bind; [apply get_folder_only_lookups|].
      by intros ?; apply only_lookups_silent.
Qed.

End LookupFacts.

Lemma set_result_item_results0 (k v : string) :
  set_result_item k v results0 = ([], Ret (<["result" := VDict (<[k := v]> ∅)]> results0)).
Proof. reflexivity. Qed.

Lemma set_result_item_again (k v : string) (d : gmap string string)
    (r : gmap string value) :
  set_result_item k v (<["result" := VDict d]> r)
  = ([], Ret (<["result" := VDict (<[k := v]> d)]> r)).
Proof.
  unfold set_result_item. rewrite lookup_insert_eq. by rewrite insert_insert_eq.
Qed.

(** The payload of an exit on an existing folder, by computation. *)
Ltac existing_payload :=
  unfold ends, reports_existing; simpl;
  split; [by vm_compute|split; [by vm_compute|split; [by vm_compute|]]];
  let d := fresh "d" in
  let Hd := fresh "Hd" in
  intros d Hd; vm_compute in Hd;
  first [discriminate Hd | injection Hd as <-; by eexists].

Section PresentLookupFacts.
Context (self : VmwareFolderManager).

(** A walk over at least one segment returns a folder or fails. *)
Lemma walk_parts_ends dc ft (segs : list string) (a : option moid)
    (E : outcome → Prop) :
  (∀ msg, E (FailJson msg)) → segs ≠ [] →
  ends (λ b, is_Some b) E (walk_parts self dc ft segs a).
Proof.
  intros Hfail.
  revert a. induction segs as [|s rest IH]; intros a Hne; [done|]. simpl.
  apply (ends_bind (λ _, True)); [apply ends_get_folder|].
  intros [o|] _; [|apply Hfail].
  destruct rest as [|s' rest']; [by eexists|]. by apply IH.
Qed.

Lemma present_lookup_ends :
  ends (handed_over self) reports_existing (present_lookup self).
Proof.
  unfold present_lookup. cbv zeta.
  destruct (nonempty (parent_folder_moid (params self))) as [id|] eqn:Hid.
  - apply nonempty_Some in Hid as [_ Hid].
    rewrite name_of_moid_eq.
    case_object_as m Hm; [|done].
    rewrite bind_pure.
    apply (ends_bind (λ _, True)); [apply ends_get_folder|].
    intros [child|] _.
    + existing_payload.
    + change (handed_over self (Some id, Some (mo_name m))).
      unfold handed_over. rewrite Hid, orb_true_r. by eauto.
  - apply nonempty_None in Hid.
    destruct (nonempty (parent_folder (params self))) as [pf|] eqn:Hpf.
    + apply nonempty_Some in Hpf as [Hpf Htruthy]. rewrite Hpf in Htruthy.
      destruct (PyStr.contains "/" pf).
      * apply (ends_bind (λ b, is_Some b));
          [apply walk_parts_ends; [done|apply split_not_nil]|].
        intros p [a ->].
        apply (ends_bind (λ _, True)); [apply ends_get_folder|].
        intros [child|] _.
        -- existing_payload.
        -- change (handed_over self (Some a, Some pf)).
           unfold handed_over. rewrite Htruthy, Hid. by split.
      * apply (ends_bind (λ _, True)); [apply ends_get_folder|].
        intros [p|] _; [|done].
        apply (ends_bind (λ _, True)); [apply ends_get_folder|].
        intros [child|] _.
        -- rewrite set_result_item_results0, bind_pure. existing_payload.
        -- change (handed_over self (Some p, Some pf)).
           unfold handed_over. rewrite Htruthy, Hid. by split.
    + apply nonempty_None in Hpf.
      apply (ends_bind (λ _, True)); [apply ends_get_folder|].
      intros [f|] _.
      * rewrite set_result_item_results0, bind_pure.
        rewrite set_result_item_again, bind_pure. existing_payload.
      * change (handed_over self (None, parent_folder (params self))).
        unfold handed_over. by rewrite Hpf, Hid.
Qed.

End PresentLookupFacts.

(** ** Creation and removal, once the lookup is done *)

Section MutationFacts.
Context (self : VmwareFolderManager).

Let c := content self.

Lemma create_handler_silent (e : exn) : trace (create_handler e) = [].
Proof. by destruct e. Qed.

Lemma remove_handler_silent (e : exn) : trace (remove_handler e) = [].
Proof. by destruct e. Qed.

(** Under check mode the creation calls nothing and reports a change. *)
Lemma create_dry (p : option moid) (pf : option string) :
  check_mode self = true → handed_over self (p, pf) →
  ∃ msg, try_except (create_body self p pf) create_handler
         = ([], Ret (dry_run_results msg)).
Proof.
  intros Hcheck Hover. unfold create_body. cbv zeta. rewrite Hcheck.
  destruct p as [a|]; simpl in Hover.
  - destruct Hover as [-> Hobj].
    destruct (PyStr.truthy (parent_folder_moid (params self))).
    + destruct (Hobj eq_refl) as [m Hm]. rewrite attr_name_eq, Hm.
      eexists. cbv beta iota. rewrite !bind_pure. reflexivity.
    + eexists. cbv beta iota. rewrite bind_mret. reflexivity.
  - destruct Hover as [-> _]. by eexists.
Qed.

(** Outside check mode it is one [CreateFolder] on the anchor and the
    report of the new folder. *)
Lemma create_real (p : option moid) (pf : option string) :
  check_mode self = false → handed_over self (p, pf) →
  ∃ msg, create_body self p pf
         = (new_folder ← call_CreateFolder self (anchor_of self p) (folder_name (params self));
            mret (created_results (get_folder_path c new_folder) msg)).
Proof.
  intros Hcheck Hover. unfold create_body. cbv zeta. rewrite Hcheck.
  destruct p as [a|]; simpl in Hover.
  - destruct Hover as [-> Hobj].
    destruct (PyStr.truthy (parent_folder_moid (params self))).
    + destruct (Hobj eq_refl) as [m Hm]. rewrite attr_name_eq, Hm.
      eexists. cbv beta iota. rewrite bind_pure, bind_mret. apply bind_ext; intros new_folder.
      rewrite set_result_item_results0, bind_pure.
      rewrite set_result_item_again, bind_pure. reflexivity.
    + eexists. cbv beta iota. rewrite bind_mret. apply bind_ext; intros new_folder.
      rewrite set_result_item_results0, bind_pure.
      rewrite set_result_item_again, bind_pure. reflexivity.
  - destruct Hover as [-> _]. eexists. apply bind_ext; intros new_folder.
    rewrite set_result_item_results0, bind_pure.
    rewrite set_result_item_again, bind_pure.
    unfold created_results. by rewrite (insert_insert_ne _ "path" "msg").
Qed.

Lemma create_outcome (p : option moid) (pf : option string) :
  check_mode self = false → handed_over self (p, pf) →
  ∃ msg, try_except (create_body self p pf) create_handler
         = ([CallCreateFolder (anchor_of self p) (folder_name (params self))],
            match CreateFolder c (anchor_of self p) (folder_name (params self)) with
            | inr new_folder => Ret (created_results (get_folder_path c new_folder) msg)
            | inl e => final (create_handler e)
            end).
Proof.
  intros Hcheck Hover.
  destruct (create_real p pf Hcheck Hover) as [msg ->]. exists msg.
  unfold call_CreateFolder, tell. rewrite bind_Ret.
  destruct (CreateFolder _ _ _) as [e|new_folder]; simpl; [|done].
  by destruct e.
Qed.

(** Under check mode the removal calls nothing and reports a change. *)
Lemma remove_dry (f : moid) (pf : option string) :
  check_mode self = true →
  ∃ msg, try_except (remove_body self f pf) remove_handler
         = ([], Ret (removed_results true msg)).
Proof.
  intros Hcheck. unfold remove_body. cbv zeta. rewrite Hcheck.
  destruct (PyStr.truthy pf); by eexists.
Qed.

(** Outside check mode it is the removal call of the category, the wait
    for its task, and the report of what the task ended with. *)
Lemma remove_outcome (f : moid) (pf : option string) :
  check_mode self = false →
  try_except (remove_body self f pf) remove_handler
  = (removal_call self f
       :: match removal_answer self f with
          | inr t => [CallWaitForTask t]
          | inl _ => []
          end,
     match removal_answer self f with
     | inl e => final (remove_handler e)
     | inr t =>
         match wait_for_task c t with
         | inr (changed, msg) => Ret (removed_results changed msg)
         | inl e => final (remove_handler e)
         end
     end).
Proof.
  intros Hcheck. unfold remove_body, c. cbv zeta. rewrite Hcheck.
  assert (Hsame : (if PyStr.truthy pf then destroy_and_wait self f
                   else destroy_and_wait self f) = destroy_and_wait self f)
    by (by destruct (PyStr.truthy pf)).
  rewrite Hsame. clear Hsame.
  unfold destroy_and_wait, removal_call, removal_answer, call_wait_for_task,
    call_UnregisterAndDestroy, call_Destroy, tell. cbv zeta.
  destruct (folder_type (params self));
    rewrite bind_Ret;
    match goal with
    | |- context [answer ?a] => destruct a as [e|t]; simpl
    end;
    try (by destruct e);
    destruct (wait_for_task (content self) t) as [e|[changed msg]]; simpl;
    try (by destruct e); done.
Qed.

End MutationFacts.

(** ** The reconciler *)

Lemma lookups_do_not_mutate (tr : list call) :
  Forall (λ c, is_lookup c = true) tr → mutates tr = false.
Proof.
  induction 1 as [|c tr Hc _ IH]; [done|]. unfold mutates in *. simpl.
  rewrite IH. by destruct c.
Qed.

Lemma mutates_app (tr tr' : list call) : mutates (tr ++ tr') = mutates tr || mutates tr'.
Proof. unfold mutates. apply existsb_app. Qed.

Lemma absent_lookup_ends (self : VmwareFolderManager) :
  ends (λ _, True) reports_existing (absent_lookup self).
Proof.
  unfold absent_lookup. cbv zeta.
  destruct (nonempty (parent_folder_moid (params self))) as [id|].
  - rewrite name_of_moid_eq. case_object; [|done]. rewrite bind_pure.
    apply (ends_bind (λ _, True)); [apply ends_get_folder|]. by intros.
  - destruct (nonempty (parent_folder (params self))) as [pf|].
    + destruct (PyStr.contains "/" pf).
      * apply (ends_bind (λ b, is_Some b));
          [apply walk_parts_ends; [done|apply split_not_nil]|].
        intros p _.
        apply (ends_bind (λ _, True)); [apply ends_get_folder|]. by intros.
      * apply (ends_bind (λ _, True)); [apply ends_get_folder|].
        intros [p|] _; [|done].
        apply (ends_bind (λ _, True)); [apply ends_get_folder|]. by intros.
    + apply (ends_bind (λ _, True)); [apply ends_get_folder|]. by intros.
Qed.

(** [ensure] in terms of its two phases. *)
Lemma ensure_present_eq (self : VmwareFolderManager) :
  state (params self) = present →
  ensure self =
  (x ← present_lookup self;
   results ← try_except (create_body self x.1 x.2) create_handler;
   exit_json results).
Proof.
  intros Hstate. unfold ensure, ensure_present. rewrite Hstate.
  apply bind_ext. by intros [p pf].
Qed.

Lemma ensure_absent_eq (self : VmwareFolderManager) :
  state (params self) = absent →
  ensure self =
  (x ← absent_lookup self;
   match x.1 with
   | Some folder_obj =>
       results ← try_except (remove_body self folder_obj x.2) remove_handler;
       exit_json results
   | None => exit_json results0
   end).
Proof.
  intros Hstate. unfold ensure, ensure_absent. rewrite Hstate.
  apply bind_ext. by intros [p pf].
Qed.

(** *** The one call of the creation *)

(** Outside check mode, once the lookup has handed the target over as not
    found, [CreateFolder] is called once on the anchor and its answer
    decides the end. *)
Lemma create_after_lookup (self : VmwareFolderManager) (p : option moid)
    (pf : option string) (tr : list call) :
  state (params self) = present →
  check_mode self = false →
  present_lookup self = (tr, Ret (p, pf)) →
  ∃ msg,
    ensure self
    = (tr ++ [CallCreateFolder (anchor_of self p) (folder_name (params self))],
       match CreateFolder (content self) (anchor_of self p) (folder_name (params self)) with
       | inr new_folder =>
           Exit (ExitJson (created_results
                             (get_folder_path (content self) new_folder) msg))
       | inl e =>
           match final (create_handler e) with
           | Ret results => Exit (ExitJson results)
           | Raise e' => Raise e'
           | Exit o => Exit o
           end
       end).
Proof.
  intros Hstate Hcheck Hlookup.
  pose proof (present_lookup_ends self) as Hover.
  unfold ends in Hover. rewrite Hlookup in Hover. simpl in Hover.
  destruct (create_outcome self p pf Hcheck Hover) as [msg Hcreate].
  exists msg.
  rewrite (ensure_present_eq self Hstate), Hlookup, bind_Ret. cbn [fst snd].
  rewrite Hcreate.
  destruct (CreateFolder _ _ _) as [e|new_folder]; [destruct e|]; reflexivity.
Qed.

Lemma lookups_hold_no_create (tr : list call) (a : moid) (n : string) :
  Forall (λ c, is_lookup c = true) tr → CallCreateFolder a n ∉ tr.
Proof. intros Hall Hin. by apply (proj1 (Forall_forall _ _) Hall) in Hin. Qed.

(** A [CreateFolder] in the trace of [ensure] is the one call of the
    creation: [state=present], no check mode, the lookup has handed the
    target over, and the call is on the anchor with the folder name. *)
Lemma create_call_inv (self : VmwareFolderManager) (a : moid) (n : string) :
  CallCreateFolder a n ∈ trace (ensure self) →
  state (params self) = present
  ∧ check_mode self = false
  ∧ ∃ tr p pf, present_lookup self = (tr, Ret (p, pf))
               ∧ a = anchor_of self p ∧ n = folder_name (params self).
Proof.
  intros Hin.
  destruct (state (params self)) eqn:Hstate.
  - pose proof (present_lookup_only_lookups self) as Hquiet. unfold only_lookups in Hquiet.
    destruct (present_lookup self) as [tr [[p pf]|e|o]] eqn:Hlookup; simpl in Hquiet.
    + destruct (check_mode self) eqn:Hcheck.
      * exfalso. revert Hin.
        rewrite (ensure_present_eq self Hstate), Hlookup, bind_Ret. cbn [fst snd].
        pose proof (present_lookup_ends self) as Hover.
        unfold ends in Hover. rewrite Hlookup in Hover. simpl in Hover.
        destruct (create_dry self p pf Hcheck Hover) as [msg ->].
        simpl. rewrite app_nil_r. by apply lookups_hold_no_create.
      * destruct (create_after_lookup self p pf tr Hstate Hcheck Hlookup) as [msg Hrun].
        rewrite Hrun in Hin. simpl in Hin.
        apply elem_of_app in Hin as [Hin|Hin];
          [by destruct (lookups_hold_no_create tr a n Hquiet)|].
        apply list_elem_of_singleton in Hin. injection Hin as -> ->.
        split; [done|]. split; [done|]. by exists tr, p, pf.
    + exfalso. revert Hin.
      rewrite (ensure_present_eq self Hstate), Hlookup. simpl.
      by apply lookups_hold_no_create.
    + exfalso. revert Hin.
      rewrite (ensure_present_eq self Hstate), Hlookup. simpl.
      by apply lookups_hold_no_create.
  - exfalso.
    pose proof (absent_lookup_only_lookups self) as Hquiet. unfold only_lookups in Hquiet.
    destruct (absent_lookup self) as [tr [[[f|] pf]|e|o]] eqn:Hlookup; simpl in Hquiet;
      revert Hin; rewrite (ensure_absent_eq self Hstate), Hlookup;
      try (simpl; rewrite ?app_nil_r; by apply lookups_hold_no_create).
    rewrite bind_Ret. cbn [fst snd].
    destruct (check_mode self) eqn:Hcheck.
    + destruct (remove_dry self f pf Hcheck) as [msg ->].
      simpl. rewrite app_nil_r. by apply lookups_hold_no_create.
    + rewrite (remove_outcome self f pf Hcheck).
      intros Hin.
      assert (Hin' : CallCreateFolder a n
                     ∈ tr ++ removal_call self f
                          :: match removal_answer self f with
                             | inr t => [CallWaitForTask t]
                             | inl _ => []
                             end).
      { revert Hin. destruct (removal_answer self f) as [e|t]; [by destruct e|].
        by destruct (wait_for_task (content self) t) as [e|[changed msg]];
          [destruct e|]. }
      apply elem_of_app in Hin' as [Hin'|Hin'];
        [by destruct (lookups_hold_no_create tr a n Hquiet)|].
      apply elem_of_cons in Hin' as [Hin'|Hin'].
      * unfold removal_call in Hin'. by destruct (folder_type (params self)).
      * destruct (removal_answer self f) as [e|t]; [by apply elem_of_nil in Hin'|].
        by apply list_elem_of_singleton in Hin'.
Qed.

(** *** The run of [ensure] by the result of its lookup *)

Section Runs.
Context (self : VmwareFolderManager).

(** A phase result turned into the end of the module. *)
Let finish (r : res (gmap string value)) : res unit :=
  match r with
  | Ret results => Exit (ExitJson results)
  | Raise e => Raise e
  | Exit o => Exit o
  end.

Lemma bind_exit_json (m : M (gmap string value)) :
  (results ← m; exit_json results) = (trace m, finish (final m)) :> M unit.
Proof. destruct m as [tr [r|e|o]]; simpl; by rewrite ?app_nil_r. Qed.

Lemma ensure_present_handed tr p pf :
  state (params self) = present →
  present_lookup self = (tr, Ret (p, pf)) →
  ensure self
  = (tr ++ trace (try_except (create_body self p pf) create_handler),
     finish (final (try_except (create_body self p pf) create_handler))).
Proof.
  intros Hstate Hlookup.
  rewrite (ensure_present_eq self Hstate), Hlookup, bind_Ret. cbn [fst snd].
  by rewrite bind_exit_json.
Qed.

Lemma ensure_present_exit tr o :
  state (params self) = present →
  present_lookup self = (tr, Exit o) → ensure self = (tr, Exit o).
Proof. intros Hstate Hlookup. by rewrite (ensure_present_eq self Hstate), Hlookup. Qed.

Lemma ensure_present_raise tr e :
  state (params self) = present →
  present_lookup self = (tr, Raise e) → ensure self = (tr, Raise e).
Proof. intros Hstate Hlookup. by rewrite (ensure_present_eq self Hstate), Hlookup. Qed.

Lemma ensure_absent_found tr f pf :
  state (params self) = absent →
  absent_lookup self = (tr, Ret (Some f, pf)) →
  ensure self
  = (tr ++ trace (try_except (remove_body self f pf) remove_handler),
     finish (final (try_except (remove_body self f pf) remove_handler))).
Proof.
  intros Hstate Hlookup.
  rewrite (ensure_absent_eq self Hstate), Hlookup, bind_Ret. cbn [fst snd].
  by rewrite bind_exit_json.
Qed.

Lemma ensure_absent_none tr pf :
  state (params self) = absent →
  absent_lookup self = (tr, Ret (None, pf)) →
  ensure self = (tr, Exit (ExitJson results0)).
Proof.
  intros Hstate Hlookup.
  rewrite (ensure_absent_eq self Hstate), Hlookup, bind_Ret. simpl.
  by rewrite app_nil_r.
Qed.

Lemma ensure_absent_exit tr o :
  state (params self) = absent →
  absent_lookup self = (tr, Exit o) → ensure self = (tr, Exit o).
Proof. intros Hstate Hlookup. by rewrite (ensure_absent_eq self Hstate), Hlookup. Qed.

Lemma ensure_absent_raise tr e :
  state (params self) = absent →
  absent_lookup self = (tr, Raise e) → ensure self = (tr, Raise e).
Proof. intros Hstate Hlookup. by rewrite (ensure_absent_eq self Hstate), Hlookup. Qed.

(** The lookup results with what is known of them. *)
Lemma present_lookup_handed tr p pf :
  present_lookup self = (tr, Ret (p, pf)) → handed_over self (p, pf).
Proof.
  intros Hlookup. pose proof (present_lookup_ends self) as H.
  unfold ends in H. by rewrite Hlookup in H.
Qed.

Lemma present_lookup_exit tr o :
  present_lookup self = (tr, Exit o) → reports_existing o.
Proof.
  intros Hlookup. pose proof (present_lookup_ends self) as H.
  unfold ends in H. by rewrite Hlookup in H.
Qed.

Lemma absent_lookup_exit tr o :
  absent_lookup self = (tr, Exit o) → reports_existing o.
Proof.
  intros Hlookup. pose proof (absent_lookup_ends self) as H.
  unfold ends in H. by rewrite Hlookup in H.
Qed.

Lemma present_lookup_quiet tr r :
  present_lookup self = (tr, r) → mutates tr = false.
Proof.
  intros Hlookup. apply lookups_do_not_mutate.
  pose proof (present_lookup_only_lookups self) as H.
  unfold only_lookups in H. by rewrite Hlookup in H.
Qed.

Lemma absent_lookup_quiet tr r :
  absent_lookup self = (tr, r) → mutates tr = false.
Proof.
  intros Hlookup. apply lookups_do_not_mutate.
  pose proof (absent_lookup_only_lookups self) as H.
  unfold only_lookups in H. by rewrite Hlookup in H.
Qed.

End Runs.

(** *** Shapes of the payloads *)

Section Shapes.
Context (self : VmwareFolderManager).










(** The lookup of [state=absent] leaves the module only through
    [fail_json]. *)
Lemma absent_lookup_fails_only :
  ends (λ _, True) (λ o, ∃ msg, o = FailJson msg) (absent_lookup self).
Proof.
  unfold absent_lookup. cbv zeta.
  destruct (nonempty (parent_folder_moid (params self))) as [id|].
  - rewrite name_of_moid_eq. case_object; [|by eexists]. rewrite bind_pure.
    apply (ends_bind (λ _, True)); [apply ends_get_folder|]. by intros.
  - destruct (nonempty (parent_folder (params self))) as [pf|].
    + destruct (PyStr.contains "/" pf).
      * apply (ends_bind (λ b, is_Some b));
          [apply walk_parts_ends; [by eexists|apply split_not_nil]|].
        intros p _.
        apply (ends_bind (λ _, True)); [apply ends_get_folder|]. by intros.
      * apply (ends_bind (λ _, True)); [apply ends_get_folder|].
        intros [p|] _; [|by eexists].
        apply (ends_bind (λ _, True)); [apply ends_get_folder|]. by intros.
    + apply (ends_bind (λ _, True)); [apply ends_get_folder|]. by intros.
Qed.

End Shapes.

(** *** Exits on an existing folder *)

(** Whenever a parent is given, by name, by path or by id, the exit on an
    existing folder has a bare string as [result]. *)
Lemma existing_under_parent_is_string (self : VmwareFolderManager) :
  PyStr.truthy (parent_folder (params self))
  || PyStr.truthy (parent_folder_moid (params self)) = true →
  ends (λ _, True)
       (λ o, match o with
             | ExitJson r => ∃ text, r !! "result" = Some (VStr text)
             | FailJson _ => True
             end)
       (present_lookup self).
Proof.
  intros Hgiven. unfold present_lookup. cbv zeta.
  destruct (nonempty (parent_folder_moid (params self))) as [id|] eqn:Hid.
  - rewrite name_of_moid_eq. case_object; [|done]. rewrite bind_pure.
    apply (ends_bind (λ _, True)); [apply ends_get_folder|].
    intros [child|] _; [|done]. eexists. apply lookup_insert_eq.
  - apply nonempty_None in Hid. rewrite Hid, orb_false_r in Hgiven.
    unfold nonempty. rewrite Hgiven.
    destruct (parent_folder (params self)) as [pf|]; [|done].
    destruct (PyStr.contains "/" pf).
    + apply (ends_bind (λ b, is_Some b));
        [apply walk_parts_ends; [done|apply split_not_nil]|].
      intros p _.
      apply (ends_bind (λ _, True)); [apply ends_get_folder|].
      intros [child|] _; [|done]. eexists. apply lookup_insert_eq.
    + apply (ends_bind (λ _, True)); [apply ends_get_folder|].
      intros [p|] _; [|done].
      apply (ends_bind (λ _, True)); [apply ends_get_folder|].
      intros [child|] _; [|done].
      rewrite set_result_item_results0, bind_pure. eexists. apply lookup_insert_eq.
Qed.

(** * Properties of the specification *)

(** ** The path walk of [ensure] *)

(** C1. With a [parent_folder] that contains a slash (and no
    [parent_folder_moid]: the module accepts only one of the two), the
    segments are those of the value stripped of leading and trailing
    slashes.  The loop of [ensure] over them is the sequence of
    single-segment resolutions, each anchored on the folder resolved
    before.  When the segments before [x] resolve in a chain and [x] does
    not, [ensure] fails with the message naming [x], and its whole trace is
    one enumeration per segment up to [x]: nothing follows, and no segment
    is looked up twice.  When all resolve, the target is looked up next,
    under the last folder of the chain. *)
Theorem path_walk (self : VmwareFolderManager) (pf : string) :
  let dc := datacenter (params self) in
  let ft := folder_type (params self) in
  let segs := PyStr.split "/" (PyStr.strip "/" pf) in
  PyStr.truthy (parent_folder_moid (params self)) = false →
  parent_folder (params self) = Some pf →
  PyStr.contains "/" pf = true →
  walk_parts self dc ft segs None = sequential_resolution self dc ft segs
  ∧ (∀ pre x post a tr,
       segs = pre ++ x :: post →
       resolved_chain self dc ft None pre a tr →
       final (get_folder self dc x ft a) = Ret None →
       ensure self
       = (tr ++ [CallGetAllObjs a], Exit (FailJson ("Could not find folder " +:+ x))))
  ∧ (∀ a tr,
       resolved_chain self dc ft None segs a tr →
       ∃ rest, trace (ensure self) = tr ++ CallGetAllObjs a :: rest).
Proof.
  intros dc ft segs Hmoid Hpf Hslash.
  assert (Hid : nonempty (parent_folder_moid (params self)) = None)
    by (unfold nonempty; by rewrite Hmoid).
  assert (Hparent : nonempty (parent_folder (params self)) = Some pf).
  { rewrite Hpf. unfold nonempty. by destruct pf. }
  clear Hmoid Hpf. rename Hid into Hmoid. rename Hparent into Hpf.
  split; [|split].
  - apply walk_parts_sequential.
  - intros pre x post a tr Hsegs Hchain Hx.
    pose proof (walk_parts_break self dc ft pre post x None a tr Hchain Hx) as Hwalk.
    rewrite <- Hsegs in Hwalk.
    unfold ensure, ensure_present, ensure_absent, present_lookup, absent_lookup.
    cbv zeta. rewrite Hmoid, Hpf, Hslash.
    fold dc ft segs. rewrite Hwalk.
    by destruct (state (params self)).
  - intros a tr Hchain.
    pose proof (walk_parts_chain self dc ft segs None a tr Hchain) as Hwalk.
    cut (∃ rest, trace (ensure self) = (tr ++ [CallGetAllObjs a]) ++ rest).
    { intros [rest ->]. exists rest. by rewrite <- app_assoc. }
    unfold ensure, ensure_present, ensure_absent, present_lookup, absent_lookup.
    cbv zeta. rewrite Hmoid, Hpf, Hslash.
    fold dc ft segs. rewrite Hwalk.
    destruct (state (params self));
      apply prefix_bind, prefix_Ret, prefix_bind;
      rewrite get_folder_shape; by exists [].
Qed.

Lemma path_walk_witness :
  ensure (Sample.manager Sample.ok_client false
            (Sample.request present "new" (Some "/tier1/x/tier2/") None))
  = ([CallGetAllObjs None] ++ [CallGetAllObjs (Some "group-v12")],
     Exit (FailJson "Could not find folder x")).
Proof.
  apply (path_walk
           (Sample.manager Sample.ok_client false
              (Sample.request present "new" (Some "/tier1/x/tier2/") None))
           "/tier1/x/tier2/" eq_refl eq_refl eq_refl)
    with (pre := ["tier1"]) (post := ["tier2"]).
  - reflexivity.
  - eapply chain_cons; [vm_compute; reflexivity|apply chain_nil].
  - vm_compute. reflexivity.
Defined.

(** The walk of the example: [tier1/tier2] resolves segment by segment,
    and a missing middle segment is the one named. *)
Example walk_of_tiers :
  walk_parts Sample.finder "DC0" vm (PyStr.split "/" (PyStr.strip "/" "tier1/tier2")) None
  = ([CallGetAllObjs None; CallGetAllObjs (Some "group-v12")], Ret (Some "group-v13"))
  ∧ walk_parts Sample.finder "DC0" vm (PyStr.split "/" (PyStr.strip "/" "tier1/x/tier2")) None
    = ([CallGetAllObjs None; CallGetAllObjs (Some "group-v12")],
       Exit (FailJson "Could not find folder x")).
Proof. by vm_compute. Qed.

(** ** Category disambiguation *)

(** C2. A lookup by name in a category returns only a folder of that name
    whose child-type signature is the signature of the category's root
    folder of this datacenter, with or without an anchor.  So when the
    signatures of two categories differ (vm and network, say), the lookup
    in the one never returns a folder [g] that has the signature of the
    other, whatever its name. *)
Theorem get_folder_category (self : VmwareFolderManager) (dc n : string)
    (ft other : FolderType) (anchor : option moid) (f g : moid) :
  let objs := objects (content self) in
  signature objs (datacenter_folder_type self ft)
    ≠ signature objs (datacenter_folder_type self other) →
  signature objs g = signature objs (datacenter_folder_type self other) →
  final (get_folder self dc n ft anchor) = Ret (Some f) →
  name_of objs f = Some n
  ∧ signature objs f = signature objs (datacenter_folder_type self ft)
  ∧ f ≠ g.
Proof.
  intros objs Hdiff Hg Hf. subst objs.
  destruct (get_folder_spec self dc n ft anchor) as (_ & _ & Hfound).
  destruct (Hfound f Hf) as (_ & Hname & _ & Hsig & _).
  split; [done|]. split; [done|].
  intros ->. apply Hdiff. by rewrite Hsig, <- Hg.
Qed.

Lemma get_folder_category_witness :
  name_of Sample.inventory "group-v10" = Some "Shared"
  ∧ signature Sample.inventory "group-v10" = signature Sample.inventory "group-v3"
  ∧ "group-v10" ≠ "group-n11".
Proof.
  apply (get_folder_category Sample.finder "DC0" "Shared" vm network None
           "group-v10" "group-n11").
  - vm_compute. discriminate.
  - vm_compute. reflexivity.
  - vm_compute. reflexivity.
Defined.

(** The two [Shared] folders of the example resolve independently. *)
Example shared_resolves_per_category :
  final (get_folder Sample.finder "DC0" "Shared" vm None) = Ret (Some "group-v10")
  ∧ final (get_folder Sample.finder "DC0" "Shared" network None) = Ret (Some "group-n11").
Proof. by vm_compute. Qed.

(** ** Datacenter scope of a lookup without anchor *)

(** C3. Without a parent anchor a folder is returned only when the node two
    parent levels above it bears the requested datacenter name.  Hence, in
    an inventory whose enumerated folders are all there, when every folder
    of the requested name and signature hangs two levels below a node of
    another name (the other datacenter), the lookup returns [None]. *)
Theorem name_only_lookup_scope (self : VmwareFolderManager) (dc n : string)
    (ft : FolderType) :
  let objs := objects (content self) in
  (∀ f, final (get_folder self dc n ft None) = Ret (Some f) →
        ∃ gp, grandparent objs f = Some gp ∧ name_of objs gp = Some dc)
  ∧ (is_Some (objs !! datacenter_folder_type self ft) →
     Forall (λ f, is_Some (objs !! f)
                  ∧ (name_of objs f = Some n →
                     signature objs (datacenter_folder_type self ft) = signature objs f →
                     elsewhere self dc f))
            (get_all_objs (content self) None) →
     get_folder self dc n ft None = ([CallGetAllObjs None], Ret None)).
Proof.
  intros objs. subst objs. split.
  - intros f Hf.
    destruct (get_folder_spec self dc n ft None) as (_ & _ & Hfound).
    destruct (Hfound f Hf) as (_ & _ & _ & _ & Hgp). by apply Hgp.
  - intros Hroot Hall. rewrite get_folder_eq.
    by rewrite (get_folder_loop_none self dc n ft _ Hroot Hall).
Qed.

Lemma name_only_lookup_scope_witness :
  get_folder Sample.finder "DC0" "X" vm None = ([CallGetAllObjs None], Ret None).
Proof.
  apply (name_only_lookup_scope Sample.finder "DC0" "X" vm).
  - by eexists.
  - repeat (constructor;
              [split; [by eexists|
                       intros Hname Hsig; vm_compute in Hname; try discriminate Hname]|]).
    + exists "datacenter-20", "DC1".
      split; [reflexivity|]. split; [reflexivity|discriminate].
    + constructor.
Defined.

(** The folder [X] of [DC1] is found from [DC1] and not from [DC0]. *)
Example other_datacenter_folder :
  final (get_folder Sample.finder "DC1" "X" vm None) = Ret (Some "group-v22")
  ∧ final (get_folder Sample.finder "DC0" "X" vm None) = Ret None.
Proof. by vm_compute. Qed.

(** ** Check mode *)

(** C4 as stated fails twice.  When the name is taken, check mode reports
    [changed] true while the same invocation outside check mode calls
    [CreateFolder], meets [DuplicateName] and reports [changed] false.
    And when there is nothing to remove, the payload has no message. *)
Lemma check_mode_differs :
  let create := Sample.manager Sample.taken_client true
                  (Sample.request present "Shared" (Some "tier1") None) in
  let remove := Sample.manager Sample.ok_client true
                  (Sample.request absent "ghost" None None) in
  (∃ msg, final (ensure create) = Exit (ExitJson (dry_run_results msg)))
  ∧ final (ensure (uncheck create))
    = Exit (ExitJson (duplicate_results "The name 'Shared' already exists."))
  ∧ ¬ check_mode_as_specified create
  ∧ final (ensure remove) = Exit (ExitJson results0)
  ∧ has_message results0 = false
  ∧ ¬ check_mode_as_specified remove.
Proof.
  intros create remove.
  assert (Hreal : final (ensure (uncheck create))
                  = Exit (ExitJson (duplicate_results "The name 'Shared' already exists.")))
    by (by vm_compute).
  split.
  { exists "Folder 'Shared' of type 'vm' under 'tier1' will be created.".
    by vm_compute. }
  split; [exact Hreal|]. split; [|split; [|split]].
  - intros [_ H].
    destruct (H (dry_run_results
                   "Folder 'Shared' of type 'vm' under 'tier1' will be created."))
      as [_ H']; [by vm_compute|].
    specialize (H' _ Hreal). by vm_compute in H'.
  - by vm_compute.
  - by vm_compute.
  - intros [_ H]. destruct (H results0) as [H' _]; [by vm_compute|].
    by vm_compute in H'.
Qed.

(** C4, amended.  Under check mode no create, destroy or unregister call is
    issued.  The reported [changed] is true exactly when the same
    invocation outside check mode issues such a call, and false when the
    desired state already holds.  It is the flag reported outside check
    mode, unless that run issues its call and still reports no change
    ([DuplicateName] on create, or a task that ended without success).  A
    message is given in every case but one: [state=absent] with nothing to
    remove. *)
Theorem check_mode_reports (self : VmwareFolderManager) :
  check_mode self = true →
  mutates (trace (ensure self)) = false
  ∧ ∀ r, final (ensure self) = Exit (ExitJson r) →
      changed_flag r = Some (mutates (trace (ensure (uncheck self))))
      ∧ (has_message r = false →
         state (params self) = absent ∧ changed_flag r = Some false)
      ∧ (∀ r', final (ensure (uncheck self)) = Exit (ExitJson r') →
               changed_flag r' = changed_flag r
               ∨ (mutates (trace (ensure (uncheck self))) = true
                  ∧ changed_flag r' = Some false)).
Proof.
  intros Hcheck.
  assert (Hreal : check_mode (uncheck self) = false) by done.
  destruct (state (params self)) eqn:Hstate.
  - assert (Hstate' : state (params (uncheck self)) = present) by done.
    destruct (present_lookup self) as [tr [[p pf]|e|o]] eqn:Hlookup;
      pose proof (present_lookup_quiet self tr _ Hlookup) as Hquiet;
      pose proof (Hlookup : present_lookup (uncheck self) = _) as Hlookup'.
    + pose proof (present_lookup_handed self tr p pf Hlookup) as Hover.
      rewrite (ensure_present_handed self tr p pf Hstate Hlookup).
      rewrite (ensure_present_handed (uncheck self) tr p pf Hstate' Hlookup').
      destruct (create_dry self p pf Hcheck Hover) as [msg ->].
      destruct (create_outcome (uncheck self) p pf Hreal Hover) as [msg' ->].
      simpl. rewrite app_nil_r, mutates_app, Hquiet. simpl.
      split; [done|]. intros r [= <-]. split; [done|]. split; [done|].
      intros r'. destruct (CreateFolder _ _ _) as [e|new_folder]; simpl.
      * destruct e; simpl; try done. intros [= <-]. by right.
      * intros [= <-]. by left.
    + rewrite (ensure_present_raise self tr e Hstate Hlookup). by split.
    + rewrite (ensure_present_exit self tr o Hstate Hlookup).
      rewrite (ensure_present_exit (uncheck self) tr o Hstate' Hlookup').
      simpl. split; [done|]. intros r [= ->].
      destruct (present_lookup_exit self tr _ Hlookup) as (Hchanged & _ & Hhas & _).
      rewrite Hquiet, Hhas. split; [done|]. split; [done|].
      intros r' [= <-]. by left.
  - assert (Hstate' : state (params (uncheck self)) = absent) by done.
    destruct (absent_lookup self) as [tr [[[f|] pf]|e|o]] eqn:Hlookup;
      pose proof (absent_lookup_quiet self tr _ Hlookup) as Hquiet;
      pose proof (Hlookup : absent_lookup (uncheck self) = _) as Hlookup'.
    + rewrite (ensure_absent_found self tr f pf Hstate Hlookup).
      rewrite (ensure_absent_found (uncheck self) tr f pf Hstate' Hlookup').
      destruct (remove_dry self f pf Hcheck) as [msg ->].
      rewrite (remove_outcome (uncheck self) f pf Hreal).
      simpl. rewrite app_nil_r, mutates_app, Hquiet.
      assert (Hcall : ∀ rest, mutates (removal_call (uncheck self) f :: rest) = true).
      { intros rest. unfold removal_call. by destruct (folder_type _). }
      rewrite Hcall. simpl.
      split; [done|]. intros r [= <-]. split; [done|]. split; [done|].
      intros r'. destruct (removal_answer (uncheck self) f) as [e|t]; [by destruct e|].
      destruct (wait_for_task (content self) t) as [e|[changed msg']]; [by destruct e|].
      intros [= <-]. destruct changed; [by left|by right].
    + rewrite (ensure_absent_none self tr pf Hstate Hlookup).
      rewrite (ensure_absent_none (uncheck self) tr pf Hstate' Hlookup').
      simpl. split; [done|]. intros r [= <-]. rewrite Hquiet.
      split; [done|]. split; [done|]. intros r' [= <-]. by left.
    + rewrite (ensure_absent_raise self tr e Hstate Hlookup). by split.
    + rewrite (ensure_absent_exit self tr o Hstate Hlookup).
      rewrite (ensure_absent_exit (uncheck self) tr o Hstate' Hlookup').
      simpl. split; [done|]. intros r [= ->].
      destruct (absent_lookup_exit self tr _ Hlookup) as (Hchanged & _ & Hhas & _).
      rewrite Hquiet, Hhas. split; [done|]. split; [done|].
      intros r' [= <-]. by left.
Qed.

Lemma check_mode_reports_witness :
  let self := Sample.manager Sample.ok_client true
                (Sample.request absent "tier2" (Some "tier1") None) in
  mutates (trace (ensure self)) = false
  ∧ ∀ r, final (ensure self) = Exit (ExitJson r) →
      changed_flag r = Some (mutates (trace (ensure (uncheck self))))
      ∧ (has_message r = false →
         state (params self) = absent ∧ changed_flag r = Some false)
      ∧ (∀ r', final (ensure (uncheck self)) = Exit (ExitJson r') →
               changed_flag r' = changed_flag r
               ∨ (mutates (trace (ensure (uncheck self))) = true
                  ∧ changed_flag r' = Some false)).
Proof.
  apply (check_mode_reports
           (Sample.manager Sample.ok_client true
              (Sample.request absent "tier2" (Some "tier1") None))).
  reflexivity.
Defined.

(** ** Creation faults *)

(** C5. Whenever [ensure] calls [CreateFolder] (so [state] is [present],
    the target was not found, and check mode is off): if the platform
    raises [DuplicateName] the module exits without failure, with
    [changed] false and a message that quotes the fault; if it raises
    [InvalidName] or any other exception the module fails. *)
Theorem create_faults (self : VmwareFolderManager) (a : moid) (n : string) :
  CallCreateFolder a n ∈ trace (ensure self) →
  let answer := CreateFolder (content self) a n in
  (∀ text, answer = inl (DuplicateName text) →
     final (ensure self) = Exit (ExitJson (duplicate_results text))
     ∧ changed_flag (duplicate_results text) = Some false
     ∧ has_message (duplicate_results text) = true)
  ∧ (∀ text, answer = inl (InvalidName text) →
       final (ensure self)
       = Exit (FailJson ("Failed to create folder as folder name is not a valid "
                         +:+ "entity name : " +:+ text)))
  ∧ (∀ e, answer = inl e →
       (∀ text, e ≠ DuplicateName text) → (∀ text, e ≠ InvalidName text) →
       final (ensure self)
       = Exit (FailJson ("Failed to create folder due to generic"
                         +:+ " exception : " +:+ to_native e +:+ " "))).
Proof.
  intros Hin answer.
  destruct (create_call_inv self a n Hin)
    as (Hstate & Hcheck & tr & p & pf & Hlookup & Ha & Hn).
  destruct (create_after_lookup self p pf tr Hstate Hcheck Hlookup) as [msg Hrun].
  rewrite Hrun. simpl. rewrite <- Ha, <- Hn. fold answer.
  split; [|split].
  - by intros text ->.
  - by intros text ->.
  - intros e -> Hdup Hinv. destruct e; try done.
    + by destruct (Hdup text).
    + by destruct (Hinv text).
Qed.

Lemma create_faults_witness :
  let self := Sample.manager Sample.taken_client false
                (Sample.request present "Shared" (Some "tier1") None) in
  final (ensure self)
  = Exit (ExitJson (duplicate_results "The name 'Shared' already exists.")).
Proof.
  apply (create_faults
           (Sample.manager Sample.taken_client false
              (Sample.request present "Shared" (Some "tier1") None))
           "group-v12" "Shared").
  - apply list_elem_of_In. vm_compute. right. right. left. reflexivity.
  - reflexivity.
Defined.

(** ** Already existing folders *)

(** C6 at its failing inputs: the folder [tier2] exists under [tier1], and
    with the parent given by name, by path or by id the payload has the
    message as a bare [result] string and no path anywhere. *)
Example existing_under_parent_has_no_path :
  let found_under (pf id : option string) (lookups : list call) (parent : string) :=
    ensure (Sample.manager Sample.ok_client false (Sample.request present "tier2" pf id))
    = (lookups,
       Exit (ExitJson (<["result" := VStr (already_exists_under "tier2" parent)]> results0))) in
  found_under (Some "tier1") None
    [CallGetAllObjs None; CallGetAllObjs (Some "group-v12")] "tier1"
  ∧ found_under (Some "/tier1/") None
      [CallGetAllObjs None; CallGetAllObjs (Some "group-v12")] "/tier1/"
  ∧ found_under None (Some "group-v12")
      [CallGetAllObjs (Some "group-v12")] "tier1".
Proof. by vm_compute. Qed.

(** Without a parent the payload has the path and the message in
    [result]. *)
Example existing_without_parent_has_path :
  ensure (Sample.manager Sample.ok_client false (Sample.request present "tier1" None None))
  = ([CallGetAllObjs None],
     Exit (ExitJson
             (<["result" := VDict {[ "path" := "/path/of/group-v12";
                                      "msg" := "Folder tier1 already exists" ]}]> results0))).
Proof. by vm_compute. Qed.

(** ** Shape of the payload *)




(** The shape at work on the examples: a created folder has its message
    and path in [result]; the target found under its parent is the one
    exit with a string there. *)
Example payload_shape_of_examples :
  let created := Sample.manager Sample.ok_client false
                   (Sample.request present "tier3" None (Some "group-v13")) in
  let found := Sample.manager Sample.ok_client false
                 (Sample.request present "tier2" (Some "tier1") None) in
  ¬ found_under_parent created
  ∧ final (ensure created)
    = Exit (ExitJson (created_results "/path/of/group-v99"
                        "Folder 'tier3' of type 'vm' under 'tier2' created successfully."))
  ∧ found_under_parent found
  ∧ final (ensure found) = Exit (ExitJson (existing_under_results "tier2" "tier1")).
Proof.
  split; [|split; [by vm_compute|split; [|by vm_compute]]].
  - intros (_ & _ & tr & r & Hexit). vm_compute in Hexit. discriminate Hexit.
  - split; [done|]. split; [done|].
    exists [CallGetAllObjs None; CallGetAllObjs (Some "group-v12")],
           (existing_under_results "tier2" "tier1").
    by vm_compute.
Qed.

(** ** Removal *)

(** C8.  The removal is what a run outside check mode does; under check
    mode the check-mode contract takes its place, and nothing is called.
    With [state=absent] and the target found, the removal is
    [UnregisterAndDestroy] exactly when the category is vm and [Destroy]
    for every other category; it is the one call after the lookup, its
    task is awaited next, and the payload carries the [changed] flag and
    the message the wait returned. *)
Theorem removal_outside_check_mode (self : VmwareFolderManager) (f : moid)
    (pf : option string) (tr : list call) :
  state (params self) = absent →
  check_mode self = false →
  absent_lookup self = (tr, Ret (Some f, pf)) →
  removal_as_specified self f tr.
Proof.
  intros Hstate Hcheck Hlookup.
  assert (Hrun : ensure self
                 = (tr ++ trace (try_except (remove_body self f pf) remove_handler),
                    match final (try_except (remove_body self f pf) remove_handler) with
                    | Ret results => Exit (ExitJson results)
                    | Raise e => Raise e
                    | Exit o => Exit o
                    end)).
  { rewrite (ensure_absent_eq self Hstate), Hlookup, bind_Ret. simpl.
    destruct (try_except (remove_body self f pf) remove_handler) as [tr' [r|e|o]];
      simpl; by rewrite ?app_nil_r. }
  rewrite (remove_outcome self f pf Hcheck) in Hrun. simpl in Hrun.
  unfold removal_as_specified. rewrite Hrun. simpl.
  split; [|split; [|split; [done|]]].
  - unfold removal_call. destruct (folder_type (params self)); by split.
  - unfold removal_call. destruct (folder_type (params self)); by split.
  - intros t changed msg -> Hwait. by rewrite Hwait.
Qed.

Lemma removal_outside_check_mode_witness :
  removal_as_specified
    (Sample.manager Sample.idle_client false (Sample.request absent "Shared" None None))
    "group-v10" [CallGetAllObjs None].
Proof.
  apply (removal_outside_check_mode _ "group-v10" None).
  - reflexivity.
  - reflexivity.
  - vm_compute. reflexivity.
Defined.

(** The run of the example: unregister and destroy, then the wait. *)
Example removal_of_shared :
  ensure (Sample.manager Sample.idle_client false (Sample.request absent "Shared" None None))
  = ([CallGetAllObjs None; CallUnregisterAndDestroy "group-v10"; CallWaitForTask "task-1"],
     Exit (ExitJson (removed_results false "task-msg"))).
Proof. by vm_compute. Qed.

(** The same request under check mode: the folder is found, and the run
    ends after the lookup with the report of what would be removed. *)
Example removal_of_shared_dry_run :
  ensure (Sample.manager Sample.idle_client true (Sample.request absent "Shared" None None))
  = ([CallGetAllObjs None],
     Exit (ExitJson (removed_results true "Folder 'Shared' of type 'vm' will be removed."))).
Proof. by vm_compute. Qed.

(** ** Nothing to remove *)

(** C9. With [state=absent], when the lookup of the target (after its
    parent anchor, if any, has resolved) returns no folder, the module
    exits with the initial payload, whose [changed] is false, having issued
    the enumerations of the lookup and nothing else: no destroy or
    unregister call. *)
Theorem absent_not_found_noop (self : VmwareFolderManager)
    (pf : option string) (tr : list call) :
  state (params self) = absent →
  absent_lookup self = (tr, Ret (None, pf)) →
  ensure self = (tr, Exit (ExitJson results0))
  ∧ changed_flag results0 = Some false
  ∧ mutates (trace (ensure self)) = false.
Proof.
  intros Hstate Hlookup.
  assert (Hrun : ensure self = (tr, Exit (ExitJson results0))).
  { rewrite (ensure_absent_eq self Hstate), Hlookup, bind_Ret. simpl.
    by rewrite app_nil_r. }
  split; [done|]. split; [done|].
  rewrite Hrun. simpl. apply lookups_do_not_mutate.
  pose proof (absent_lookup_only_lookups self) as Hl.
  unfold only_lookups in Hl. by rewrite Hlookup in Hl.
Qed.

Lemma absent_not_found_noop_witness :
  let self := Sample.manager Sample.ok_client false
                (Sample.request absent "ghost" (Some "tier1/tier2") None) in
  ensure self
  = ([CallGetAllObjs None; CallGetAllObjs (Some "group-v12");
      CallGetAllObjs (Some "group-v13")], Exit (ExitJson results0))
  ∧ changed_flag results0 = Some false
  ∧ mutates (trace (ensure self)) = false.
Proof.
  apply (absent_not_found_noop
           (Sample.manager Sample.ok_client false
              (Sample.request absent "ghost" (Some "tier1/tier2") None))
           (Some "tier1/tier2")).
  - reflexivity.
  - vm_compute. reflexivity.
Defined.

(** ** Depth of a lookup without anchor *)

(** In the example, [deep] lies three levels below the vm root of [DC0]
    under a folder that bears the datacenter's name. *)
Example deep_is_nested :
  parent_of Sample.inventory "group-v32" = Some "group-v31"
  ∧ parent_of Sample.inventory "group-v31" = Some "group-v30"
  ∧ parent_of Sample.inventory "group-v30" = Some (Sample.roots vm)
  ∧ name_of Sample.inventory "group-v30" = Some "DC0"
  ∧ parent_of Sample.inventory (Sample.roots vm) = Some "datacenter-2".
Proof. by vm_compute. Qed.

(** C10 as stated fails: the lookup without anchor returns the nested
    folder [deep], whose parent's parent is not the datacenter node. *)
Lemma nested_folder_is_returned :
  final (get_folder Sample.finder "DC0" "deep" vm None) = Ret (Some "group-v32")
  ∧ ¬ (∀ f, final (get_folder Sample.finder "DC0" "deep" vm None) = Ret (Some f) →
            grandparent Sample.inventory f = Some "datacenter-2").
Proof.
  split; [by vm_compute|].
  intros H. specialize (H "group-v32" eq_refl). vm_compute in H. discriminate.
Qed.

(** C10, amended.  The check is on the name two levels up, so it is the
    datacenter node only as far as names tell: when no other node of the
    inventory bears the datacenter's name, a lookup without anchor returns
    only a folder whose parent's parent is the datacenter node [dc_obj],
    and a folder nested deeper is never returned. *)
Theorem name_only_lookup_depth (self : VmwareFolderManager) (dc n : string)
    (ft : FolderType) (dc_obj : moid) :
  let objs := objects (content self) in
  map_Forall (λ o m, mo_name m = dc → o = dc_obj) objs →
  (∀ f, final (get_folder self dc n ft None) = Ret (Some f) →
        grandparent objs f = Some dc_obj)
  ∧ (∀ g, grandparent objs g ≠ Some dc_obj →
          final (get_folder self dc n ft None) ≠ Ret (Some g)).
Proof.
  intros objs Huniq. subst objs.
  assert (Honly : ∀ f, final (get_folder self dc n ft None) = Ret (Some f) →
                       grandparent (objects (content self)) f = Some dc_obj).
  { intros f Hf.
    destruct (get_folder_spec self dc n ft None) as (_ & _ & Hfound).
    destruct (Hfound f Hf) as (_ & _ & _ & _ & Hgp).
    destruct (Hgp eq_refl) as (gp & -> & Hname). f_equal.
    unfold name_of in Hname.
    destruct (objects (content self) !! gp) as [m|] eqn:Hm; [|done].
    injection Hname as Hname. by apply (Huniq gp m). }
  split; [done|].
  intros g Hg Hret. by apply Hg, Honly.
Qed.

Lemma name_only_lookup_depth_witness :
  (∀ f, final (get_folder Sample.finder "DC1" "X" vm None) = Ret (Some f) →
        grandparent Sample.inventory f = Some "datacenter-20")
  ∧ (∀ g, grandparent Sample.inventory g ≠ Some "datacenter-20" →
          final (get_folder Sample.finder "DC1" "X" vm None) ≠ Ret (Some g)).
Proof.
  apply (name_only_lookup_depth Sample.finder "DC1" "X" vm "datacenter-20").
  apply (bool_decide_unpack _). vm_compute. reflexivity.
Defined.

(** * Further properties of the code *)

(** ** The runs of [ensure] *)

(** Every run of [ensure] is of one of three kinds: it ends after its
    lookups without a call that changes the inventory; or it is a creation,
    one [CreateFolder] after the lookups; or a removal, the call of the
    category after the lookups and the wait for its task. *)
Lemma ensure_run (self : VmwareFolderManager) :
  ∃ tr, Forall (λ c, is_lookup c = true) tr
  ∧ ((∃ r, ensure self = (tr, r) ∧ ∀ u, r ≠ Ret u)
     ∨ (state (params self) = present ∧ check_mode self = false
        ∧ ∃ p pf msg,
            present_lookup self = (tr, Ret (p, pf))
            ∧ ensure self
              = (tr ++ [CallCreateFolder (anchor_of self p) (folder_name (params self))],
                 match CreateFolder (content self) (anchor_of self p)
                         (folder_name (params self)) with
                 | inr new_folder =>
                     Exit (ExitJson (created_results
                                       (get_folder_path (content self) new_folder) msg))
                 | inl e => finish (final (create_handler e))
                 end))
     ∨ (state (params self) = absent ∧ check_mode self = false
        ∧ ∃ f pf,
            absent_lookup self = (tr, Ret (Some f, pf))
            ∧ ensure self
              = (tr ++ removal_calls self f,
                 match removal_answer self f with
                 | inl e => finish (final (remove_handler e))
                 | inr t =>
                     match wait_for_task (content self) t with
                     | inr (changed, msg) => Exit (ExitJson (removed_results changed msg))
                     | inl e => finish (final (remove_handler e))
                     end
                 end))).
Proof.
  destruct (state (params self)) eqn:Hstate.
  - pose proof (present_lookup_only_lookups self) as Hquiet. unfold only_lookups in Hquiet.
    destruct (present_lookup self) as [tr [[p pf]|e|o]] eqn:Hlookup; simpl in Hquiet;
      exists tr; (split; [done|]).
    + destruct (check_mode self) eqn:Hcheck.
      * left. rewrite (ensure_present_handed self tr p pf Hstate Hlookup).
        pose proof (present_lookup_handed self tr p pf Hlookup) as Hover.
        destruct (create_dry self p pf Hcheck Hover) as [msg ->]. simpl.
        rewrite app_nil_r. by eexists.
      * right; left. split; [done|]. split; [done|].
        destruct (create_after_lookup self p pf tr Hstate Hcheck Hlookup) as [msg Hrun].
        exists p, pf, msg. by split.
    + left. rewrite (ensure_present_raise self tr e Hstate Hlookup). by eexists.
    + left. rewrite (ensure_present_exit self tr o Hstate Hlookup). by eexists.
  - pose proof (absent_lookup_only_lookups self) as Hquiet. unfold only_lookups in Hquiet.
    destruct (absent_lookup self) as [tr [[[f|] pf]|e|o]] eqn:Hlookup; simpl in Hquiet;
      exists tr; (split; [done|]).
    + destruct (check_mode self) eqn:Hcheck.
      * left. rewrite (ensure_absent_found self tr f pf Hstate Hlookup).
        destruct (remove_dry self f pf Hcheck) as [msg ->]. simpl.
        rewrite app_nil_r. by eexists.
      * right; right. split; [done|]. split; [done|]. exists f, pf. split; [done|].
        rewrite (ensure_absent_found self tr f pf Hstate Hlookup).
        rewrite (remove_outcome self f pf Hcheck). simpl. unfold removal_calls.
        f_equal. destruct (removal_answer self f) as [e|t]; [done|].
        by destruct (wait_for_task (content self) t) as [e|[changed msg]].
    + left. rewrite (ensure_absent_none self tr pf Hstate Hlookup). by eexists.
    + left. rewrite (ensure_absent_raise self tr e Hstate Hlookup). by eexists.
    + left. rewrite (ensure_absent_exit self tr o Hstate Hlookup). by eexists.
Qed.

Lemma lookup_is_no_mutation (c : call) : is_lookup c = true → is_mutation c = false.
Proof. by destruct c. Qed.

Lemma filter_mutations_lookups (tr : list call) :
  Forall (λ c, is_lookup c = true) tr → filter (λ c, is_mutation c = true) tr = [].
Proof.
  induction 1 as [|c tr Hc _ IH]; [done|].
  rewrite filter_cons, IH. apply lookup_is_no_mutation in Hc.
  destruct (decide (is_mutation c = true)) as [Hm|]; [|done]. by rewrite Hc in Hm.
Qed.

Lemma removal_call_mutates (self : VmwareFolderManager) (f : moid) :
  is_mutation (removal_call self f) = true.
Proof. unfold removal_call. by destruct (folder_type (params self)). Qed.

Lemma removal_calls_mutations (self : VmwareFolderManager) (f : moid) :
  filter (λ c, is_mutation c = true) (removal_calls self f) = [removal_call self f].
Proof.
  unfold removal_calls. rewrite filter_cons.
  destruct (decide (is_mutation (removal_call self f) = true)) as [|Hn];
    [|by destruct Hn; apply removal_call_mutates].
  by destruct (removal_answer self f).
Qed.

(** X1. The calls of one invocation come in this order: first the
    enumerations of the lookups, then at most one call that changes the
    inventory, [CreateFolder] with the requested name when [state] is
    [present], the removal call of the category when it is [absent], and
    after a removal that gave a task the wait for it.  So [present] never
    destroys, [absent] never creates, and no invocation changes the
    inventory twice. *)
Theorem ensure_trace_shape (self : VmwareFolderManager) :
  (∃ tr rest,
     trace (ensure self) = tr ++ rest
     ∧ Forall (λ c, is_lookup c = true) tr
     ∧ (rest = []
        ∨ (state (params self) = present
           ∧ ∃ a, rest = [CallCreateFolder a (folder_name (params self))])
        ∨ (state (params self) = absent ∧ ∃ f, rest = removal_calls self f)))
  ∧ length (filter (λ c, is_mutation c = true) (trace (ensure self))) ≤ 1.
Proof.
  destruct (ensure_run self) as (tr & Hquiet & [(r & Hrun & _)|[Hrun|Hrun]]).
  - rewrite Hrun. simpl. split.
    + exists tr, []. rewrite app_nil_r. by eauto.
    + rewrite (filter_mutations_lookups tr Hquiet). simpl. lia.
  - destruct Hrun as (Hstate & _ & p & pf & msg & _ & Hrun). rewrite Hrun. simpl. split.
    + exists tr, [CallCreateFolder (anchor_of self p) (folder_name (params self))].
      split; [done|]. split; [done|]. right; left. by eauto.
    + rewrite filter_app, (filter_mutations_lookups tr Hquiet). simpl. lia.
  - destruct Hrun as (Hstate & _ & f & pf & _ & Hrun). rewrite Hrun. simpl. split.
    + exists tr, (removal_calls self f).
      split; [done|]. split; [done|]. right; right. by eauto.
    + rewrite filter_app, (filter_mutations_lookups tr Hquiet), removal_calls_mutations.
      simpl. lia.
Qed.

Lemma create_handler_ends (e : exn) : ∀ u, finish (final (create_handler e)) ≠ Raise u.
Proof. by destruct e. Qed.

Lemma remove_handler_fails (e : exn) :
  ∃ msg, remove_handler e = ([], Exit (FailJson msg)).
Proof. destruct e; by eexists. Qed.

(** X2. [ensure] never returns to its caller: it ends in [exit_json], in
    [fail_json], or in an exception that no handler caught.  Such an
    exception comes from a lookup: when [ensure] ends in one, it has only
    enumerated folders, and no create, destroy or unregister call was
    issued.  Whatever is raised once such a call is issued is caught. *)
Theorem ensure_outcome (self : VmwareFolderManager) :
  (∀ u, final (ensure self) ≠ Ret u)
  ∧ (∀ e, final (ensure self) = Raise e →
          Forall (λ c, is_lookup c = true) (trace (ensure self))
          ∧ mutates (trace (ensure self)) = false).
Proof.
  destruct (ensure_run self) as (tr & Hquiet & [(r & Hrun & Hr)|[Hrun|Hrun]]).
  - rewrite Hrun. simpl. split; [done|]. intros e _. split; [done|].
    by apply lookups_do_not_mutate.
  - destruct Hrun as (_ & _ & p & pf & msg & _ & Hrun). rewrite Hrun. simpl.
    destruct (CreateFolder _ _ _) as [e|new_folder]; [|by split].
    split; [by destruct e|]. intros u Hu. by destruct (create_handler_ends e u).
  - destruct Hrun as (_ & _ & f & pf & _ & Hrun). rewrite Hrun. simpl.
    destruct (removal_answer self f) as [e|t].
    { destruct (remove_handler_fails e) as [msg ->]. by split. }
    destruct (wait_for_task (content self) t) as [e|[changed msg]]; [|by split].
    destruct (remove_handler_fails e) as [msg ->]. by split.
Qed.

(** A run that ends in an uncaught exception: the view lists a folder that
    is gone when its name is read. *)
Lemma ensure_outcome_witness :
  let c := {| objects := Sample.inventory;
              get_all_objs := λ _, ["group-v404"];
              CreateFolder := λ _ _, inr "group-v99";
              Destroy := λ _, inr "task-1";
              UnregisterAndDestroy := λ _, inr "task-1";
              wait_for_task := λ _, inr (true, "done");
              get_folder_path := λ o, o |} in
  let self := Sample.manager c false (Sample.request present "new" None None) in
  final (ensure self) = Raise (ManagedObjectNotFound "group-v404")
  ∧ Forall (λ c, is_lookup c = true) (trace (ensure self))
  ∧ mutates (trace (ensure self)) = false.
Proof.
  intros c self. split; [by vm_compute|].
  apply (proj2 (ensure_outcome self) (ManagedObjectNotFound "group-v404")).
  by vm_compute.
Defined.

(** ** Faults of the removal *)

Lemma lookups_hold_no_removal (tr : list call) (f : moid) :
  Forall (λ c, is_lookup c = true) tr →
  (CallDestroy f ∉ tr) ∧ (CallUnregisterAndDestroy f ∉ tr).
Proof.
  intros Hall. split; intros Hin; by apply (proj1 (Forall_forall _ _) Hall) in Hin.
Qed.

(** A destroy or unregister call in the trace of [ensure] is the removal of
    the folder the lookup found, with [state=absent] and no check mode. *)
Lemma removal_call_inv (self : VmwareFolderManager) (f : moid) :
  CallDestroy f ∈ trace (ensure self) ∨ CallUnregisterAndDestroy f ∈ trace (ensure self) →
  state (params self) = absent ∧ check_mode self = false
  ∧ removal_call self f ∈ trace (ensure self)
  ∧ final (ensure self)
    = match removal_answer self f with
      | inl e => finish (final (remove_handler e))
      | inr t =>
          match wait_for_task (content self) t with
          | inr (changed, msg) => Exit (ExitJson (removed_results changed msg))
          | inl e => finish (final (remove_handler e))
          end
      end.
Proof.
  intros Hin.
  destruct (ensure_run self) as (tr & Hquiet & [(r & Hrun & _)|[Hrun|Hrun]]).
  - exfalso. rewrite Hrun in Hin. simpl in Hin.
    destruct (lookups_hold_no_removal tr f Hquiet). by destruct Hin.
  - exfalso. destruct Hrun as (_ & _ & p & pf & msg & _ & Hrun).
    rewrite Hrun in Hin. simpl in Hin.
    destruct (lookups_hold_no_removal tr f Hquiet) as [Hd Hu].
    destruct Hin as [Hin|Hin]; apply elem_of_app in Hin as [Hin|Hin]; try done;
      by apply list_elem_of_singleton in Hin.
  - destruct Hrun as (Hstate & Hcheck & f' & pf & _ & Hrun).
    rewrite Hrun in Hin |- *. simpl in Hin |- *.
    destruct (lookups_hold_no_removal tr f Hquiet) as [Hd Hu].
    assert (Hf : f' = f).
    { unfold removal_calls, removal_call in Hin.
      destruct Hin as [Hin|Hin]; apply elem_of_app in Hin as [Hin|Hin]; try done;
        apply elem_of_cons in Hin as [Hin|Hin];
        try (destruct (folder_type (params self)); by simplify_eq);
        destruct (removal_answer self f') as [e|t];
        try (by apply elem_of_nil in Hin); by apply list_elem_of_singleton in Hin. }
    subst f'. split; [done|]. split; [done|]. split; [|done].
    apply elem_of_app. right. unfold removal_calls. by left.
Qed.

(** X3. Once [ensure] has issued a destroy or unregister call, every fault
    is fatal, whether the call raises it or the wait for its task does:
    [ConcurrentAccess] and [InvalidState] fail with their own messages, any
    other exception with the generic one.  No fault of a removal is turned
    into a successful exit. *)
Theorem removal_faults (self : VmwareFolderManager) (f : moid) (e : exn) :
  CallDestroy f ∈ trace (ensure self) ∨ CallUnregisterAndDestroy f ∈ trace (ensure self) →
  removal_answer self f = inl e
  ∨ (∃ t, removal_answer self f = inr t ∧ wait_for_task (content self) t = inl e) →
  final (ensure self)
  = Exit (FailJson
            match e with
            | ConcurrentAccess text =>
                "Failed to remove folder as another client"
                +:+ " modified folder before this operation : " +:+ text
            | InvalidState text =>
                "Failed to remove folder as folder is in"
                +:+ " invalid state : " +:+ text
            | _ =>
                "Failed to remove folder due to generic"
                +:+ " exception " +:+ to_native e +:+ " "
            end).
Proof.
  intros Hin Hfault.
  destruct (removal_call_inv self f Hin) as (_ & _ & _ & ->).
  destruct Hfault as [->|(t & -> & ->)]; by destruct e.
Qed.

Lemma removal_faults_witness :
  let c := Sample.client (inr "group-v99")
             (inl (OtherException "task failed")) in
  let self := Sample.manager c false (Sample.request absent "Shared" None None) in
  final (ensure self)
  = Exit (FailJson "Failed to remove folder due to generic exception task failed ").
Proof.
  intros c self.
  apply (removal_faults self "group-v10" (OtherException "task failed")).
  - right. apply list_elem_of_In. vm_compute. right. left. reflexivity.
  - right. exists "task-1". by split.
Defined.

(** ** The folder that is created *)

(** X4. When [CreateFolder] answers with the new folder, the module exits
    with [changed] true, and [result] holds the path of that new folder and
    a message; the name the folder was created with is [folder_name]. *)
Theorem created_folder_report (self : VmwareFolderManager) (a new_folder : moid)
    (n : string) :
  CallCreateFolder a n ∈ trace (ensure self) →
  CreateFolder (content self) a n = inr new_folder →
  n = folder_name (params self)
  ∧ ∃ msg,
      final (ensure self)
      = Exit (ExitJson (created_results (get_folder_path (content self) new_folder) msg))
      ∧ changed_flag (created_results (get_folder_path (content self) new_folder) msg)
        = Some true
      ∧ created_results (get_folder_path (content self) new_folder) msg !! "result"
        = Some (VDict {[ "msg" := msg;
                         "path" := get_folder_path (content self) new_folder ]}).
Proof.
  intros Hin Hnew.
  destruct (create_call_inv self a n Hin)
    as (Hstate & Hcheck & tr & p & pf & Hlookup & -> & ->).
  split; [done|].
  destruct (create_after_lookup self p pf tr Hstate Hcheck Hlookup) as [msg Hrun].
  exists msg. rewrite Hrun. simpl. rewrite Hnew. split; [done|]. split; [done|].
  unfold created_results. rewrite lookup_insert_ne by done.
  rewrite lookup_insert_eq. by do 2 f_equal.
Qed.

Lemma created_folder_report_witness :
  let self := Sample.manager Sample.ok_client false
                (Sample.request present "tier3" (Some "tier1/tier2") None) in
  "tier3" = folder_name (params self)
  ∧ ∃ msg,
      final (ensure self)
      = Exit (ExitJson (created_results "/path/of/group-v99" msg))
      ∧ changed_flag (created_results "/path/of/group-v99" msg) = Some true
      ∧ created_results "/path/of/group-v99" msg !! "result"
        = Some (VDict {[ "msg" := msg; "path" := "/path/of/group-v99" ]}).
Proof.
  intros self.
  apply (created_folder_report self "group-v13" "group-v99" "tier3").
  - apply list_elem_of_In. vm_compute. do 3 right. left. reflexivity.
  - reflexivity.
Defined.

Section AnchorFacts.
Context (self : VmwareFolderManager).

Let dc := datacenter (params self).
Let ft := folder_type (params self).

Lemma ends_get_folder_found n anchor (E : outcome → Prop) :
  ends (λ r, ∀ f, r = Some f →
                  f ∈ get_all_objs (content self) anchor ∧ accepted self dc n ft anchor f)
       E (get_folder self dc n ft anchor).
Proof.
  unfold ends. destruct (get_folder_spec self dc n ft anchor) as (_ & Hexit & Hfound).
  destruct (final (get_folder self dc n ft anchor)) as [r|e|o]; [|done|by destruct (Hexit o)].
  intros f ->. by apply Hfound.
Qed.

(** The folder a walk returns was found by the lookup of its last
    segment. *)
Lemma walk_parts_found (segs : list string) (a0 : option moid) (E : outcome → Prop) :
  (∀ msg, E (FailJson msg)) → segs ≠ [] →
  ends (λ b, ∃ a seg anchor,
               b = Some a ∧ a ∈ get_all_objs (content self) anchor
               ∧ accepted self dc seg ft anchor a)
       E (walk_parts self dc ft segs a0).
Proof.
  intros Hfail.
  revert a0. induction segs as [|s rest IH]; intros a0 Hne; [done|]. simpl.
  eapply ends_bind; [apply ends_get_folder_found|].
  intros [o|] Ho; [|apply Hfail].
  destruct rest as [|s' rest']; [|by apply IH].
  destruct (Ho o eq_refl). by exists o, s, a0.
Qed.

(** The parent folder object that [present_lookup] hands over: the object
    of the id when one is given; none when no parent is given; and for a
    parent given by name or path, a folder that [get_folder] found. *)
Lemma present_lookup_anchor :
  ends (λ x,
          (PyStr.truthy (parent_folder_moid (params self)) = true →
           x.1 = parent_folder_moid (params self))
          ∧ (PyStr.truthy (parent_folder_moid (params self)) = false →
             PyStr.truthy (parent_folder (params self)) = false → x.1 = None)
          ∧ (PyStr.truthy (parent_folder_moid (params self)) = false →
             PyStr.truthy (parent_folder (params self)) = true →
             ∃ a seg anchor,
               x.1 = Some a ∧ a ∈ get_all_objs (content self) anchor
               ∧ accepted self dc seg ft anchor a))
       (λ _, True) (present_lookup self).
Proof.
  unfold present_lookup. cbv zeta. fold dc ft.
  destruct (nonempty (parent_folder_moid (params self))) as [id|] eqn:Hid.
  - apply nonempty_Some in Hid as [Hid Htruthy]. rewrite Htruthy.
    rewrite name_of_moid_eq. case_object; [|done]. rewrite bind_pure.
    apply (ends_bind (λ _, True)); [apply ends_get_folder|].
    intros [child|] _; [done|]. by repeat split.
  - apply nonempty_None in Hid. rewrite Hid.
    destruct (nonempty (parent_folder (params self))) as [pf|] eqn:Hpf.
    + apply nonempty_Some in Hpf as [Hpf Htruthy]. rewrite Htruthy.
      destruct (PyStr.contains "/" pf).
      * eapply ends_bind; [by apply walk_parts_found; [|apply split_not_nil]|].
        intros p Hp.
        apply (ends_bind (λ _, True)); [apply ends_get_folder|].
        intros [child|] _; [done|]. by repeat split.
      * eapply ends_bind; [apply ends_get_folder_found|].
        intros [p|] Hp; [|done].
        apply (ends_bind (λ _, True)); [apply ends_get_folder|].
        intros [child|] _.
        -- by rewrite set_result_item_results0, bind_pure.
        -- destruct (Hp p eq_refl). repeat split; try done.
           intros _ _. by exists p, pf, None.
    + apply nonempty_None in Hpf. rewrite Hpf.
      apply (ends_bind (λ _, True)); [apply ends_get_folder|].
      intros [f|] _; [|by repeat split].
      rewrite set_result_item_results0, bind_pure.
      by rewrite set_result_item_again, bind_pure.
Qed.

End AnchorFacts.

(** X5. The folder on which [CreateFolder] is called: the object of
    [parent_folder_moid] when an id is given, as it is, with no check of
    its category; the root folder of [folder_type] when no parent is
    given; and for a parent given by name or by path a folder that
    [get_folder] returned, so one whose child-type signature is that of
    the category. *)
Theorem create_anchor_choice (self : VmwareFolderManager) (a : moid) (n : string) :
  let objs := objects (content self) in
  let ft := folder_type (params self) in
  CallCreateFolder a n ∈ trace (ensure self) →
  (PyStr.truthy (parent_folder_moid (params self)) = true →
   parent_folder_moid (params self) = Some a)
  ∧ (PyStr.truthy (parent_folder_moid (params self)) = false →
     PyStr.truthy (parent_folder (params self)) = false →
     a = datacenter_folder_type self ft)
  ∧ (PyStr.truthy (parent_folder_moid (params self)) = false →
     PyStr.truthy (parent_folder (params self)) = true →
     is_Some (signature objs a)
     ∧ signature objs a = signature objs (datacenter_folder_type self ft)
     ∧ ∃ anchor, a ∈ get_all_objs (content self) anchor).
Proof.
  intros objs ft Hin.
  destruct (create_call_inv self a n Hin)
    as (Hstate & Hcheck & tr & p & pf & Hlookup & -> & _).
  pose proof (present_lookup_anchor self) as Hanchor.
  unfold ends in Hanchor. rewrite Hlookup in Hanchor. simpl in Hanchor.
  destruct Hanchor as (Hid & Hnone & Hfound).
  split; [|split].
  - intros Htruthy. rewrite <- (Hid Htruthy).
    destruct p as [a|]; [done|]. rewrite <- (Hid Htruthy) in Htruthy. done.
  - intros Hno Hnopf. by rewrite (Hnone Hno Hnopf).
  - intros Hno Hpf.
    destruct (Hfound Hno Hpf) as (a & seg & anchor & -> & Hin' & Hacc).
    destruct Hacc as (_ & Hsome & Hsig & _). simpl.
    split; [done|]. split; [done|]. by exists anchor.
Qed.

Lemma create_anchor_choice_witness :
  let self := Sample.manager Sample.ok_client false
                (Sample.request present "tier3" (Some "tier1/tier2") None) in
  is_Some (signature Sample.inventory "group-v13")
  ∧ signature Sample.inventory "group-v13" = signature Sample.inventory "group-v3"
  ∧ ∃ anchor, "group-v13" ∈ get_all_objs (content self) anchor.
Proof.
  intros self.
  apply (create_anchor_choice self "group-v13" "tier3"); try reflexivity.
  apply list_elem_of_In. vm_compute. do 3 right. left. reflexivity.
Defined.

(** With an id the category of the parent is not looked at: a vm request
    creates under a network folder. *)
Example create_under_id_of_other_category :
  ensure (Sample.manager Sample.ok_client false
            (Sample.request present "new" None (Some "group-n11")))
  = ([CallGetAllObjs (Some "group-n11"); CallCreateFolder "group-n11" "new"],
     Exit (ExitJson (created_results "/path/of/group-v99"
                       "Folder 'new' of type 'vm' under 'Shared' created successfully."))).
Proof. by vm_compute. Qed.

(** ** A parent that is not there *)

(** X6. With a [parent_folder_moid] that names no object of the inventory,
    [ensure] fails at once, for [present] and [absent] alike, with a
    message that quotes the id: nothing is enumerated and nothing is
    changed. *)
Theorem missing_moid_fails_first (self : VmwareFolderManager) (id : moid) :
  parent_folder_moid (params self) = Some id →
  id ≠ EmptyString →
  objects (content self) !! id = None →
  ∃ text,
    ensure self
    = ([], Exit (FailJson ("Could not find folder using moid " +:+ id
                           +:+ " : " +:+ text))).
Proof.
  intros Hid Hne Hgone. exists id.
  assert (Hnon : nonempty (parent_folder_moid (params self)) = Some id).
  { rewrite Hid. unfold nonempty. by destruct id. }
  unfold ensure, ensure_present, ensure_absent, present_lookup, absent_lookup.
  cbv zeta. rewrite Hnon, name_of_moid_eq, Hgone.
  by destruct (state (params self)).
Qed.

Lemma missing_moid_fails_first_witness :
  ∃ text,
    ensure (Sample.manager Sample.ok_client false
              (Sample.request absent "Shared" None (Some "group-v404")))
    = ([], Exit (FailJson ("Could not find folder using moid " +:+ "group-v404"
                           +:+ " : " +:+ text))).
Proof.
  apply (missing_moid_fails_first
           (Sample.manager Sample.ok_client false
              (Sample.request absent "Shared" None (Some "group-v404"))) "group-v404").
  - reflexivity.
  - discriminate.
  - reflexivity.
Defined.

(** X7. With a [parent_folder] without slash that the lookup does not find,
    [ensure] fails with "Parent folder ... does not exist", for [present]
    and [absent] alike, after the one enumeration of that lookup: the
    target is never looked up, and nothing is changed. *)
Theorem missing_parent_fails (self : VmwareFolderManager) (pf : string) :
  PyStr.truthy (parent_folder_moid (params self)) = false →
  parent_folder (params self) = Some pf →
  pf ≠ EmptyString →
  PyStr.contains "/" pf = false →
  final (get_folder self (datacenter (params self)) pf (folder_type (params self)) None)
  = Ret None →
  ensure self
  = ([CallGetAllObjs None],
     Exit (FailJson ("Parent folder " +:+ pf +:+ " does not exist"))).
Proof.
  intros Hmoid Hpf Hne Hslash Hnone.
  assert (Hid : nonempty (parent_folder_moid (params self)) = None)
    by (unfold nonempty; by rewrite Hmoid).
  assert (Hparent : nonempty (parent_folder (params self)) = Some pf).
  { rewrite Hpf. unfold nonempty. by destruct pf. }
  unfold ensure, ensure_present, ensure_absent, present_lookup, absent_lookup.
  cbv zeta. rewrite Hid, Hparent, Hslash, get_folder_shape, Hnone.
  by destruct (state (params self)).
Qed.

Lemma missing_parent_fails_witness :
  ensure (Sample.manager Sample.ok_client false
            (Sample.request present "new" (Some "tier9") None))
  = ([CallGetAllObjs None], Exit (FailJson ("Parent folder " +:+ "tier9" +:+ " does not exist"))).
Proof.
  apply (missing_parent_fails
           (Sample.manager Sample.ok_client false
              (Sample.request present "new" (Some "tier9") None)) "tier9");
    try reflexivity; discriminate.
Defined.

(** ** Which parent parameter counts *)

Lemma ensure_by_phases (self self' : VmwareFolderManager) :
  state (params self') = state (params self) →
  present_lookup self' = present_lookup self →
  absent_lookup self' = absent_lookup self →
  (∀ p pf, create_body self' p pf = create_body self p pf) →
  (∀ f pf, remove_body self' f pf = remove_body self f pf) →
  ensure self' = ensure self.
Proof.
  intros Hstate Hpresent Habsent Hcreate Hremove.
  unfold ensure, ensure_present, ensure_absent.
  rewrite Hstate, Hpresent, Habsent.
  destruct (state (params self)).
  - apply bind_ext. intros [p pf]. by rewrite Hcreate.
  - apply bind_ext. intros [[f|] pf]; [|done]. by rewrite Hremove.
Qed.

(** X8. When [parent_folder_moid] is given, [ensure] does not read
    [parent_folder]: whatever that parameter holds, the calls and the end
    of the invocation are the same. *)
Theorem moid_overrides_parent_folder (self : VmwareFolderManager)
    (pf : option string) :
  PyStr.truthy (parent_folder_moid (params self)) = true →
  ensure (with_parent_folder pf self) = ensure self.
Proof.
  intros Hmoid.
  assert (Hnon : ∃ id, nonempty (parent_folder_moid (params self)) = Some id).
  { unfold nonempty. rewrite Hmoid.
    destruct (parent_folder_moid (params self)) as [id|]; [by exists id|done]. }
  destruct Hnon as [id Hnon].
  apply ensure_by_phases; try done.
  - unfold present_lookup. cbv zeta. simpl. by rewrite Hnon.
  - unfold absent_lookup. cbv zeta. simpl. by rewrite Hnon.
Qed.

Lemma moid_overrides_parent_folder_witness :
  ensure (with_parent_folder (Some "no/such/path")
            (Sample.manager Sample.ok_client false
               (Sample.request present "tier3" None (Some "group-v13"))))
  = ensure (Sample.manager Sample.ok_client false
              (Sample.request present "tier3" None (Some "group-v13"))).
Proof.
  apply (moid_overrides_parent_folder
           (Sample.manager Sample.ok_client false
              (Sample.request present "tier3" None (Some "group-v13")))).
  reflexivity.
Defined.

Lemma get_folder_with_parent_folder pf (self : VmwareFolderManager) :
  get_folder (with_parent_folder pf self) = get_folder self.
Proof. reflexivity. Qed.

Lemma create_body_with_parent_folder pf (self : VmwareFolderManager) :
  create_body (with_parent_folder pf self) = create_body self.
Proof. reflexivity. Qed.

Lemma remove_body_with_parent_folder pf (self : VmwareFolderManager) :
  remove_body (with_parent_folder pf self) = remove_body self.
Proof. reflexivity. Qed.

(** X9. An empty string counts as no parent: [ensure] with an empty
    [parent_folder] is [ensure] without [parent_folder], and the same holds
    for [parent_folder_moid]. *)
Theorem empty_parent_is_no_parent (self : VmwareFolderManager) :
  ensure (with_parent_folder (Some EmptyString) self)
  = ensure (with_parent_folder None self)
  ∧ ensure (with_parent_folder_moid (Some EmptyString) self)
    = ensure (with_parent_folder_moid None self).
Proof.
  split; [|by apply ensure_by_phases].
  unfold ensure, ensure_present, ensure_absent, present_lookup, absent_lookup.
  cbv zeta. cbn [with_parent_folder params state parent_folder parent_folder_moid
                 datacenter folder_type folder_name content nonempty PyStr.truthy].
  rewrite !get_folder_with_parent_folder, !create_body_with_parent_folder,
    !remove_body_with_parent_folder.
  destruct (state (params self));
    (destruct (nonempty (parent_folder_moid (params self))); [reflexivity|]).
  - rewrite !bind_assoc. apply bind_ext. intros [f|]; [reflexivity|].
    by rewrite !bind_mret.
  - rewrite !bind_assoc. apply bind_ext. intros [f|]; by rewrite !bind_mret.
Qed.

(** ** Completeness of the lookup *)

Section FirstMatch.
Context (self : VmwareFolderManager).

Lemma passes_eq dc n ft anchor (f : moid) (m mr : managed_object) :
  objects (content self) !! f = Some m →
  objects (content self) !! datacenter_folder_type self ft = Some mr →
  passes self dc n ft anchor f
  = bool_decide (mo_name m = n)
    && bool_decide (mo_childType mr = mo_childType m)
    && match anchor with
       | Some _ => true
       | None => bool_decide (grandparent (objects (content self)) f
                              ≫= name_of (objects (content self)) = Some dc)
       end.
Proof.
  intros Hm Hmr. unfold passes. cbv zeta.
  f_equal. f_equal; apply bool_decide_ext.
  - unfold name_of. rewrite Hm. simpl. split; congruence.
  - unfold signature. rewrite Hm, Hmr. simpl. split; congruence.
Qed.

Lemma get_folder_loop_find dc n ft anchor (l : list moid) :
  readable self n ft anchor l →
  get_folder_loop self dc n ft anchor l
  = ([], Ret (List.find (passes self dc n ft anchor) l)).
Proof.
  intros [[mr Hmr] Hall].
  induction Hall as [|f rest [[m Hm] Hgp] _ IH]; [done|].
  cbn [get_folder_loop List.find]. rewrite IH.
  rewrite (passes_eq dc n ft anchor f m mr Hm Hmr).
  destruct anchor as [a|].
  - rewrite attr_name_eq, Hm, bind_pure.
    destruct (decide (mo_name m = n)) as [Hn|Hn];
      [rewrite (bool_decide_eq_true_2 _ Hn)|by rewrite (bool_decide_eq_false_2 _ Hn)].
    rewrite !attr_childType_eq, Hm, Hmr, !bind_pure.
    destruct (decide (mo_childType mr = mo_childType m)) as [Hs|Hs];
      [by rewrite (bool_decide_eq_true_2 _ Hs)|by rewrite (bool_decide_eq_false_2 _ Hs)].
  - rewrite attr_name_eq, Hm, bind_pure.
    destruct (decide (mo_name m = n)) as [Hn|Hn];
      [rewrite (bool_decide_eq_true_2 _ Hn)|by rewrite (bool_decide_eq_false_2 _ Hn)].
    rewrite !attr_childType_eq, Hm, Hmr, !bind_pure.
    destruct (decide (mo_childType mr = mo_childType m)) as [Hs|Hs];
      [rewrite (bool_decide_eq_true_2 _ Hs)|by rewrite (bool_decide_eq_false_2 _ Hs)].
    assert (Hname : name_of (objects (content self)) f = Some n).
    { unfold name_of. by rewrite Hm; simpl; rewrite Hn. }
    assert (Hsig : signature (objects (content self)) (datacenter_folder_type self ft)
                   = signature (objects (content self)) f).
    { unfold signature. by rewrite Hm, Hmr; simpl; rewrite Hs. }
    destruct (Hgp eq_refl Hname Hsig) as [ppn Hppn].
    destruct (grandparent (objects (content self)) f) as [gp|] eqn:Hgrand; [|done].
    simpl in Hppn.
    rewrite (attr_parent_parent_name_Some _ _ _ _ Hgrand Hppn), bind_pure.
    simpl. rewrite Hppn.
    destruct (decide (ppn = dc)) as [Hd|Hd].
    + by rewrite bool_decide_eq_true_2 by congruence.
    + by rewrite bool_decide_eq_false_2 by congruence.
Qed.

End FirstMatch.

(** X10. The first match wins.  On an enumeration whose reads do not raise,
    [get_folder] returns the first enumerated folder that passes the checks
    (the name, the signature of the category's root, and without anchor the
    datacenter name two levels up), and [None] exactly when no enumerated
    folder passes them. *)
Theorem get_folder_first_match (self : VmwareFolderManager) (dc n : string)
    (ft : FolderType) (anchor : option moid) :
  let l := get_all_objs (content self) anchor in
  readable self n ft anchor l →
  get_folder self dc n ft anchor
  = ([CallGetAllObjs anchor], Ret (List.find (passes self dc n ft anchor) l))
  ∧ (final (get_folder self dc n ft anchor) = Ret None
     ↔ Forall (λ f, passes self dc n ft anchor f = false) l).
Proof.
  intros l Hread.
  assert (Hrun : get_folder self dc n ft anchor
                 = ([CallGetAllObjs anchor], Ret (List.find (passes self dc n ft anchor) l))).
  { rewrite get_folder_eq. fold l.
    by rewrite (get_folder_loop_find self dc n ft anchor l Hread). }
  split; [done|]. rewrite Hrun. simpl. split.
  - intros [= Hnone]. apply Forall_forall. intros f Hf.
    apply list_elem_of_In in Hf. by apply (find_none _ _ Hnone).
  - intros Hall. f_equal.
    destruct (List.find (passes self dc n ft anchor) l) as [f|] eqn:Hfind; [|done].
    apply find_some in Hfind as [Hin Hpass]. apply list_elem_of_In in Hin.
    apply (proj1 (Forall_forall _ _) Hall) in Hin. congruence.
Qed.

Lemma get_folder_first_match_witness :
  get_folder Sample.finder "DC0" "Shared" vm None
  = ([CallGetAllObjs None],
     Ret (List.find (passes Sample.finder "DC0" "Shared" vm None) Sample.folders))
  ∧ (final (get_folder Sample.finder "DC0" "Shared" vm None) = Ret None
     ↔ Forall (λ f, passes Sample.finder "DC0" "Shared" vm None f = false) Sample.folders).
Proof.
  apply (get_folder_first_match Sample.finder "DC0" "Shared" vm None).
  split; [by eexists|].
  repeat (constructor;
            [split; [by eexists|
                     intros _ Hname Hsig; vm_compute in Hname; try discriminate Hname;
                     vm_compute in Hsig; try discriminate Hsig]|]).
  - exists "DC0". reflexivity.
  - constructor.
Defined.

(** In the example the vm lookup of [Shared] skips the network folder of
    that name, which the view lists first. *)
Example first_match_of_shared :
  List.find (passes Sample.finder "DC0" "Shared" vm None) Sample.folders = Some "group-v10"
  ∧ List.find (passes Sample.finder "DC0" "Shared" network None) Sample.folders
    = Some "group-n11".
Proof. by vm_compute. Qed.

(** X11. With a parent anchor the datacenter name plays no part: the lookup
    under an anchor gives the same for every datacenter name. *)
Theorem get_folder_anchor_ignores_datacenter (self : VmwareFolderManager)
    (dc dc' n : string) (ft : FolderType) (a : moid) :
  get_folder self dc n ft (Some a) = get_folder self dc' n ft (Some a).
Proof.
  rewrite !get_folder_eq.
  assert (Hloop : ∀ l, get_folder_loop self dc n ft (Some a) l
                       = get_folder_loop self dc' n ft (Some a) l).
  { induction l as [|f rest IH]; [done|]. cbn [get_folder_loop]. by rewrite IH. }
  by rewrite Hloop.
Qed.

(** ** The entry point *)

(** The manager [main] builds once the datacenter object [d] is found. *)
Lemma main_passed (s : Session) (module : AnsibleModule) (d : moid) :
  PyStr.len (folder_name (module_params module)) ≤ 79 →
  find_datacenter_by_name s (datacenter (module_params module)) = Some d →
  is_vcenter s = true →
  main s module
  = ensure {| content := session_content s;
              params := module_params module;
              check_mode := module_check_mode module;
              datacenter_folder_type := category_folder s d |}.
Proof.
  intros Hlen Hfind Hvc. unfold main, init. cbv zeta.
  destruct (Nat.ltb_spec 79 (PyStr.len (folder_name (module_params module))));
    [lia|].
  rewrite Hfind, bind_mret, Hvc. done.
Qed.

(** What holds once [main] has issued a call or exited successfully. *)
Lemma main_reached (s : Session) (module : AnsibleModule) :
  trace (main s module) ≠ [] ∨ (∃ r, final (main s module) = Exit (ExitJson r)) →
  PyStr.len (folder_name (module_params module)) ≤ 79
  ∧ is_vcenter s = true
  ∧ ∃ d, find_datacenter_by_name s (datacenter (module_params module)) = Some d
         ∧ main s module
           = ensure {| content := session_content s;
                       params := module_params module;
                       check_mode := module_check_mode module;
                       datacenter_folder_type := category_folder s d |}.
Proof.
  intros Hreached.
  destruct (Nat.ltb_spec 79 (PyStr.len (folder_name (module_params module))))
    as [Hlong|Hlen].
  { exfalso. revert Hreached. unfold main.
    destruct (Nat.ltb_spec 79 (PyStr.len (folder_name (module_params module))));
      [|lia].
    simpl. by intros [?|[r ?]]. }
  destruct (find_datacenter_by_name s (datacenter (module_params module)))
    as [d|] eqn:Hfind.
  2:{ exfalso. revert Hreached. unfold main, init. cbv zeta.
      destruct (Nat.ltb_spec 79 (PyStr.len (folder_name (module_params module))));
        [lia|].
      rewrite Hfind. simpl. by intros [?|[r ?]]. }
  destruct (is_vcenter s) eqn:Hvc.
  2:{ exfalso. revert Hreached. unfold main, init. cbv zeta.
      destruct (Nat.ltb_spec 79 (PyStr.len (folder_name (module_params module))));
        [lia|].
      rewrite Hfind, bind_mret, Hvc. simpl. by intros [?|[r ?]]. }
  split; [done|]. split; [done|]. exists d. split; [done|].
  by apply main_passed.
Qed.

(** When a guard does not hold, [main] fails at once. *)
Lemma main_refused (s : Session) (module : AnsibleModule) :
  79 < PyStr.len (folder_name (module_params module))
  ∨ find_datacenter_by_name s (datacenter (module_params module)) = None
  ∨ is_vcenter s = false →
  ∃ msg, main s module = ([], Exit (FailJson msg)).
Proof.
  intros Hguard. unfold main, init. cbv zeta.
  destruct (Nat.ltb_spec 79 (PyStr.len (folder_name (module_params module))))
    as [Hlong|Hlen]; [by eexists|].
  destruct (find_datacenter_by_name s (datacenter (module_params module)))
    as [d|] eqn:Hfind; [|by eexists].
  rewrite bind_mret.
  destruct (is_vcenter s) eqn:Hvc; [|by eexists].
  destruct Hguard as [Hguard|[Hguard|Hguard]]; [lia|done|done].
Qed.

(** X12. [main] reaches the inventory only past its three guards.  When it
    issues any call, or exits successfully, the folder name has at most 79
    characters (characters, not bytes: a name of 79 accented letters
    passes), the datacenter was found by name, the server is a vCenter,
    and the run is the run of [ensure] on the four folders of that
    datacenter.  When a guard does not hold, [main] fails before the first
    enumeration. *)
Theorem main_guards (s : Session) (module : AnsibleModule) :
  (trace (main s module) ≠ [] ∨ (∃ r, final (main s module) = Exit (ExitJson r)) →
   PyStr.len (folder_name (module_params module)) ≤ 79
   ∧ is_vcenter s = true
   ∧ ∃ d, find_datacenter_by_name s (datacenter (module_params module)) = Some d
          ∧ main s module
            = ensure {| content := session_content s;
                        params := module_params module;
                        check_mode := module_check_mode module;
                        datacenter_folder_type := category_folder s d |})
  ∧ (79 < PyStr.len (folder_name (module_params module))
     ∨ find_datacenter_by_name s (datacenter (module_params module)) = None
     ∨ is_vcenter s = false →
     ∃ msg, main s module = ([], Exit (FailJson msg))).
Proof. split; [apply main_reached|apply main_refused]. Qed.

Lemma main_guards_witness :
  let s := SampleSession.session Sample.ok_client true in
  let module := SampleSession.module
                  (Sample.request present SampleSession.accented79 None None) false in
  PyStr.len (folder_name (module_params module)) ≤ 79
  ∧ is_vcenter s = true
  ∧ ∃ d, find_datacenter_by_name s (datacenter (module_params module)) = Some d
         ∧ main s module
           = ensure {| content := session_content s;
                       params := module_params module;
                       check_mode := module_check_mode module;
                       datacenter_folder_type := category_folder s d |}.
Proof.
  intros s module. apply (proj1 (main_guards s module)).
  left. by vm_compute.
Defined.

(** The characters of the example names, and their bytes. *)
Example len_of_names :
  PyStr.len SampleSession.name79 = 79 ∧ String.length SampleSession.name79 = 79
  ∧ PyStr.len SampleSession.name80 = 80
  ∧ PyStr.len SampleSession.accented40 = 40
  ∧ String.length SampleSession.accented40 = 80
  ∧ PyStr.len SampleSession.accented79 = 79
  ∧ String.length SampleSession.accented79 = 158
  ∧ PyStr.len SampleSession.accented80 = 80
  ∧ PyStr.len "€" = 1 ∧ String.length "€" = 3
  ∧ PyStr.len "𝄞" = 1 ∧ String.length "𝄞" = 4.
Proof. by vm_compute. Qed.

(** On a name of one-byte characters [len] is the number of bytes. *)
Lemma len_one_byte (s : string) :
  Forall (λ a, PyStr.continuation a = false) (list_ascii_of_string s) →
  PyStr.len s = String.length s.
Proof.
  induction s as [|a s IH]; [done|]. cbn [list_ascii_of_string PyStr.len String.length].
  intros Hall. inversion Hall as [|? ? Ha Hs]; subst. rewrite Ha. f_equal. by apply IH.
Qed.

Lemma len_app (s t : string) : PyStr.len (s +:+ t) = PyStr.len s + PyStr.len t.
Proof.
  induction s as [|a s IH]; [done|]. simpl.
  destruct (PyStr.continuation a); by rewrite IH.
Qed.

(** The bound on the name counts characters: 79 pass and 80 do not, be
    they of one byte or of two, so a name of 40 accented letters, 80 bytes
    long, passes; and a missing datacenter is reported before the server
    is asked whether it is a vCenter. *)
Example main_accented_names :
  (∀ name, name = SampleSession.accented40 ∨ name = SampleSession.accented79 →
     main (SampleSession.session Sample.ok_client true)
          (SampleSession.module (Sample.request present name None None) false)
     = ([CallGetAllObjs None; CallCreateFolder "group-v3" name],
        Exit (ExitJson (created_results "/path/of/group-v99"
                          ("Folder '" +:+ name +:+ "' of type 'vm' created successfully.")))))
  ∧ main (SampleSession.session Sample.ok_client true)
         (SampleSession.module
            (Sample.request present SampleSession.accented80 None None) false)
    = ([], Exit (FailJson
                   "Failed to manage folder as folder_name can only contain 80 characters.")).
Proof. split; [intros name [->| ->]|]; by vm_compute. Qed.

(** The same on plain names, and the report of a missing datacenter. *)
Example main_name_bound :
  main (SampleSession.session Sample.ok_client true)
       (SampleSession.module (Sample.request present SampleSession.name79 None None) false)
  = ([CallGetAllObjs None; CallCreateFolder "group-v3" SampleSession.name79],
     Exit (ExitJson (created_results "/path/of/group-v99"
                       ("Folder '" +:+ SampleSession.name79
                        +:+ "' of type 'vm' created successfully."))))
  ∧ main (SampleSession.session Sample.ok_client true)
         (SampleSession.module (Sample.request present SampleSession.name80 None None) false)
    = ([], Exit (FailJson
                   "Failed to manage folder as folder_name can only contain 80 characters."))
  ∧ main (SampleSession.session Sample.ok_client false)
         (SampleSession.module
            {| state := present; datacenter := "DC9"; folder_type := vm;
               folder_name := "new"; parent_folder := None; parent_folder_moid := None |}
            false)
    = ([], Exit (FailJson "Failed to find datacenter DC9")).
Proof. by vm_compute. Qed.

(** X13. [main] never creates a folder under a name of more than 79
    characters: every [CreateFolder] it issues carries [folder_name], of at
    most 79 characters whatever their bytes, with [state=present], outside
    check mode, on a vCenter. *)
Theorem main_created_name_bound (s : Session) (module : AnsibleModule)
    (a : moid) (n : string) :
  CallCreateFolder a n ∈ trace (main s module) →
  n = folder_name (module_params module)
  ∧ PyStr.len n ≤ 79
  ∧ state (module_params module) = present
  ∧ module_check_mode module = false
  ∧ is_vcenter s = true.
Proof.
  intros Hin.
  destruct (main_reached s module) as (Hlen & Hvc & d & _ & Hmain).
  { left. intros Hnil. rewrite Hnil in Hin. by apply elem_of_nil in Hin. }
  rewrite Hmain in Hin.
  apply create_call_inv in Hin as (Hstate & Hcheck & _ & _ & _ & _ & _ & ->).
  by repeat split.
Qed.

Lemma main_created_name_bound_witness :
  let s := SampleSession.session Sample.ok_client true in
  let module := SampleSession.module
                  (Sample.request present SampleSession.accented40 None None) false in
  SampleSession.accented40 = folder_name (module_params module)
  ∧ PyStr.len SampleSession.accented40 ≤ 79
  ∧ state (module_params module) = present
  ∧ module_check_mode module = false
  ∧ is_vcenter s = true.
Proof.
  intros s module.
  apply (main_created_name_bound s module "group-v3" SampleSession.accented40).
  apply list_elem_of_In. vm_compute. right. left. reflexivity.
Defined.

(** ** The segments of a path *)

Section Segments.
Context (c : ascii).

Lemma join_split (s : string) : join c (PyStr.split c s) = s.
Proof.
  induction s as [|a s IH]; [done|]. cbn [PyStr.split].
  destruct (Ascii.eqb_spec a c) as [->|Hne].
  - destruct (PyStr.split c s) as [|h t] eqn:Hs; [by destruct (split_not_nil c s)|].
    cbn [join]. cbn [join] in IH. by rewrite IH.
  - destruct (PyStr.split c s) as [|h t] eqn:Hs; [by destruct (split_not_nil c s)|].
    destruct t as [|h' t']; cbn [join] in *; by rewrite <- IH.
Qed.

Lemma split_fields_clean (s : string) :
  Forall (λ seg, PyStr.contains c seg = false) (PyStr.split c s).
Proof.
  induction s as [|a s IH]; [by repeat constructor|]. cbn [PyStr.split].
  destruct (Ascii.eqb a c) eqn:Hac.
  - by constructor.
  - destruct (PyStr.split c s) as [|h t]; [by repeat constructor; simpl; rewrite Hac|].
    inversion IH as [|? ? Hh Ht]; subst. constructor; [|done].
    simpl. by rewrite Hac.
Qed.

Lemma lstrip_first (s : string) : first_char (PyStr.lstrip c s) ≠ Some c.
Proof.
  induction s as [|a s IH]; [done|]. simpl.
  destruct (Ascii.eqb_spec a c); [done|]. simpl. congruence.
Qed.

Lemma rstrip_first (s : string) :
  first_char s ≠ Some c → first_char (PyStr.rstrip c s) ≠ Some c.
Proof.
  destruct s as [|a s]; [done|]. simpl. intros Ha.
  destruct (PyStr.rstrip c s); [|done].
  by destruct (Ascii.eqb a c).
Qed.

Lemma rstrip_last (s : string) : last_char (PyStr.rstrip c s) ≠ Some c.
Proof.
  induction s as [|a s IH]; [done|]. simpl.
  destruct (PyStr.rstrip c s) as [|b r] eqn:Hr.
  - destruct (Ascii.eqb_spec a c); [done|]. simpl. congruence.
  - exact IH.
Qed.

Lemma split_head_empty (s : string) :
  head (PyStr.split c s) = Some EmptyString → s = EmptyString ∨ first_char s = Some c.
Proof.
  destruct s as [|a s]; [by left|]. cbn [PyStr.split].
  destruct (Ascii.eqb_spec a c) as [->|Hne]; [by right|].
  by destruct (PyStr.split c s).
Qed.

Lemma split_last_empty (s : string) :
  last (PyStr.split c s) = Some EmptyString → s = EmptyString ∨ last_char s = Some c.
Proof.
  induction s as [|a s IH]; [by left|]. cbn [PyStr.split]. intros H. right. revert H.
  destruct (Ascii.eqb_spec a c) as [->|Hne].
  - destruct (PyStr.split c s) as [|h t] eqn:Hs; [by destruct (split_not_nil c s)|].
    intros H. rewrite last_cons_cons in H. destruct (IH H) as [->|Hlast]; [done|].
    destruct s; [done|]. done.
  - destruct (PyStr.split c s) as [|h t] eqn:Hs; [by destruct (split_not_nil c s)|].
    destruct t as [|h' t']; [done|].
    intros H. rewrite last_cons_cons in H.
    assert (Hl : last (h :: h' :: t') = Some EmptyString) by by rewrite last_cons_cons.
    destruct (IH Hl) as [->|Hlast]; [done|].
    destruct s; [done|]. done.
Qed.

Lemma lstrip_run (s : string) : ∃ n, s = run c n +:+ PyStr.lstrip c s.
Proof.
  induction s as [|a s [n IH]]; [by exists 0|]. simpl.
  destruct (Ascii.eqb_spec a c) as [->|Hne].
  - exists (S n). exact (f_equal (String c) IH).
  - by exists 0.
Qed.

Lemma rstrip_run (s : string) : ∃ m, s = PyStr.rstrip c s +:+ run c m.
Proof.
  induction s as [|a s [m IH]]; [by exists 0|]. simpl.
  destruct (PyStr.rstrip c s) as [|b r] eqn:Hr.
  - simpl in IH. destruct (Ascii.eqb_spec a c) as [->|Hne].
    + exists (S m). exact (f_equal (String c) IH).
    + exists m. exact (f_equal (String a) IH).
  - exists m. exact (f_equal (String a) IH).
Qed.

Lemma strip_run (s : string) :
  ∃ n m, s = run c n +:+ PyStr.strip c s +:+ run c m.
Proof.
  destruct (lstrip_run s) as [n Hn]. destruct (rstrip_run (PyStr.lstrip c s)) as [m Hm].
  exists n, m. unfold PyStr.strip. by rewrite <- Hm.
Qed.

Lemma only_char_run (n : nat) : only_char c (run c n) = true.
Proof. induction n as [|n IH]; [done|]. simpl. by rewrite Ascii.eqb_refl. Qed.

Lemma only_char_app (s t : string) :
  only_char c (s +:+ t) = only_char c s && only_char c t.
Proof.
  induction s as [|a s IH]; [done|]. simpl. rewrite IH. by rewrite andb_assoc.
Qed.

Lemma lstrip_only_char (s : string) :
  only_char c s = true → PyStr.lstrip c s = EmptyString.
Proof.
  induction s as [|a s IH]; [done|]. simpl.
  destruct (Ascii.eqb a c); [exact IH|done].
Qed.

(** Stripping leaves nothing exactly of the strings made of [c] only. *)
Lemma strip_empty (s : string) :
  PyStr.strip c s = EmptyString ↔ only_char c s = true.
Proof.
  split.
  - intros Hs. destruct (strip_run s) as (n & m & Hrun). rewrite Hs in Hrun.
    rewrite Hrun, !only_char_app, !only_char_run. done.
  - intros Hs. unfold PyStr.strip. by rewrite lstrip_only_char.
Qed.

End Segments.

(** X14. The segments of a path.  [parent_folder.strip('/')] is the value
    without the slashes it starts and ends with: the value is a run of
    slashes, the stripped value, and a run of slashes, and the stripped
    value neither starts nor ends with a slash.
    [parent_folder.strip('/').split('/')] always gives at least one
    segment; no segment contains a slash; joined by slashes the segments
    give back the stripped value.  A value made of slashes only gives one
    segment, the empty name; for every other value neither the first nor
    the last segment is empty: the slashes at both ends are ignored, those
    in the middle are not. *)
Theorem path_segments (pf : string) :
  let stripped := PyStr.strip "/" pf in
  let segs := PyStr.split "/" stripped in
  (∃ n m, pf = run "/" n +:+ stripped +:+ run "/" m)
  ∧ first_char stripped ≠ Some "/"%char
  ∧ last_char stripped ≠ Some "/"%char
  ∧ segs ≠ []
  ∧ Forall (λ seg, PyStr.contains "/" seg = false) segs
  ∧ join "/" segs = stripped
  ∧ (only_char "/" pf = true ∧ segs = [EmptyString]
     ∨ only_char "/" pf = false
       ∧ head segs ≠ Some EmptyString ∧ last segs ≠ Some EmptyString).
Proof.
  intros stripped segs.
  assert (Hfirst : first_char stripped ≠ Some "/"%char)
    by apply rstrip_first, lstrip_first.
  assert (Hlast : last_char stripped ≠ Some "/"%char) by apply rstrip_last.
  split; [apply strip_run|]. split; [done|]. split; [done|].
  split; [apply split_not_nil|]. split; [apply split_fields_clean|].
  split; [apply join_split|].
  destruct (only_char "/" pf) eqn:Honly.
  - left. split; [done|]. apply strip_empty in Honly.
    unfold segs, stripped. by rewrite Honly.
  - right. split; [done|].
    assert (Hne : stripped ≠ EmptyString).
    { intros Hs. apply strip_empty in Hs. congruence. }
    split; intros Hempty.
    + by apply split_head_empty in Hempty as [Hnil|Hc].
    + by apply split_last_empty in Hempty as [Hnil|Hc].
Qed.

(** ** How many enumerations *)

Lemma length_trace_bind {A B} (m : M A) (f : A → M B) (k k' : nat) :
  length (trace m) ≤ k → (∀ a, length (trace (f a)) ≤ k') →
  length (trace (m ≫= f)) ≤ k + k'.
Proof.
  intros Hm Hf. destruct m as [tr [a|e|o]]; simpl in *; [|lia|lia].
  specialize (Hf a). destruct (f a) as [tr' r]. simpl in *. rewrite length_app. lia.
Qed.

Lemma length_trace_get_folder (self : VmwareFolderManager) dc n ft anchor :
  length (trace (get_folder self dc n ft anchor)) ≤ 1.
Proof. by rewrite get_folder_shape. Qed.

Lemma length_trace_walk_parts (self : VmwareFolderManager) dc ft segs a :
  length (trace (walk_parts self dc ft segs a)) ≤ length segs.
Proof.
  revert a. induction segs as [|s rest IH]; intros a; simpl; [lia|].
  apply (length_trace_bind _ _ 1 (length rest)); [apply length_trace_get_folder|].
  intros [o|]; [apply IH|simpl; lia].
Qed.

Lemma length_trace_present_lookup (self : VmwareFolderManager) :
  length (trace (present_lookup self)) ≤ lookup_budget (params self).
Proof.
  unfold present_lookup, lookup_budget. cbv zeta.
  destruct (nonempty (parent_folder_moid (params self))) as [id|].
  - rewrite name_of_moid_eq. case_object; [|simpl; lia]. rewrite bind_pure.
    apply (length_trace_bind _ _ 1 0); [apply length_trace_get_folder|].
    by intros [?|].
  - destruct (nonempty (parent_folder (params self))) as [pf|].
    + destruct (PyStr.contains "/" pf).
      * apply length_trace_bind; [apply length_trace_walk_parts|]. intros p.
        apply (length_trace_bind _ _ 1 0); [apply length_trace_get_folder|].
        by intros [?|].
      * apply (length_trace_bind _ _ 1 1); [apply length_trace_get_folder|].
        intros [p|]; [|simpl; lia].
        apply (length_trace_bind _ _ 1 0); [apply length_trace_get_folder|].
        by intros [?|].
    + apply (length_trace_bind _ _ 1 0); [apply length_trace_get_folder|].
      by intros [?|].
Qed.

Lemma length_trace_absent_lookup (self : VmwareFolderManager) :
  length (trace (absent_lookup self)) ≤ lookup_budget (params self).
Proof.
  unfold absent_lookup, lookup_budget. cbv zeta.
  destruct (nonempty (parent_folder_moid (params self))) as [id|].
  - rewrite name_of_moid_eq. case_object; [|simpl; lia]. rewrite bind_pure.
    apply (length_trace_bind _ _ 1 0); [apply length_trace_get_folder|]. by intros ?.
  - destruct (nonempty (parent_folder (params self))) as [pf|].
    + destruct (PyStr.contains "/" pf).
      * apply length_trace_bind; [apply length_trace_walk_parts|]. intros p.
        apply (length_trace_bind _ _ 1 0); [apply length_trace_get_folder|]. by intros ?.
      * apply (length_trace_bind _ _ 1 1); [apply length_trace_get_folder|].
        intros [p|]; [|simpl; lia].
        apply (length_trace_bind _ _ 1 0); [apply length_trace_get_folder|]. by intros ?.
    + apply (length_trace_bind _ _ 1 0); [apply length_trace_get_folder|]. by intros ?.
Qed.

Lemma filter_lookups_all (tr : list call) :
  Forall (λ c, is_lookup c = true) tr → filter (λ c, is_lookup c = true) tr = tr.
Proof.
  induction 1 as [|c tr Hc _ IH]; [done|].
  rewrite filter_cons, IH. by destruct (decide (is_lookup c = true)).
Qed.

(** X15. The enumerations of one invocation are bounded by the form of the
    parent: at most one when no parent or an id is given, at most two for a
    parent given by name, and for a path at most one per segment and one
    for the target. *)
Theorem enumeration_budget (self : VmwareFolderManager) :
  length (filter (λ c, is_lookup c = true) (trace (ensure self)))
  ≤ lookup_budget (params self).
Proof.
  assert (Hrest : ∀ tr rest,
            Forall (λ c, is_lookup c = true) tr →
            filter (λ c, is_lookup c = true) rest = [] →
            length (filter (λ c, is_lookup c = true) (tr ++ rest)) = length tr).
  { intros tr rest Hl Hr. by rewrite filter_app, Hr, app_nil_r, (filter_lookups_all tr Hl). }
  destruct (state (params self)) eqn:Hstate.
  - pose proof (length_trace_present_lookup self) as Hlen.
    pose proof (present_lookup_only_lookups self) as Hquiet. unfold only_lookups in Hquiet.
    destruct (present_lookup self) as [tr [[p pf]|e|o]] eqn:Hlookup;
      simpl in Hquiet, Hlen.
    + rewrite (ensure_present_handed self tr p pf Hstate Hlookup). simpl.
      rewrite Hrest; [done|done|].
      destruct (check_mode self) eqn:Hcheck.
      * destruct (create_dry self p pf Hcheck (present_lookup_handed self tr p pf Hlookup))
          as [msg ->]. done.
      * destruct (create_outcome self p pf Hcheck (present_lookup_handed self tr p pf Hlookup))
          as [msg ->]. done.
    + rewrite (ensure_present_raise self tr e Hstate Hlookup). simpl.
      by rewrite (filter_lookups_all tr Hquiet).
    + rewrite (ensure_present_exit self tr o Hstate Hlookup). simpl.
      by rewrite (filter_lookups_all tr Hquiet).
  - pose proof (length_trace_absent_lookup self) as Hlen.
    pose proof (absent_lookup_only_lookups self) as Hquiet. unfold only_lookups in Hquiet.
    destruct (absent_lookup self) as [tr [[[f|] pf]|e|o]] eqn:Hlookup;
      simpl in Hquiet, Hlen.
    + rewrite (ensure_absent_found self tr f pf Hstate Hlookup). simpl.
      rewrite Hrest; [done|done|].
      destruct (check_mode self) eqn:Hcheck.
      * destruct (remove_dry self f pf Hcheck) as [msg ->]. done.
      * rewrite (remove_outcome self f pf Hcheck). simpl.
        unfold removal_call.
        destruct (folder_type (params self)); by destruct (removal_answer self f).
    + rewrite (ensure_absent_none self tr pf Hstate Hlookup). simpl.
      by rewrite (filter_lookups_all tr Hquiet).
    + rewrite (ensure_absent_raise self tr e Hstate Hlookup). simpl.
      by rewrite (filter_lookups_all tr Hquiet).
    + rewrite (ensure_absent_exit self tr o Hstate Hlookup). simpl.
      by rewrite (filter_lookups_all tr Hquiet).
Qed.

(** ** Check mode and the reads *)

(** X16. A run under check mode asks for exactly the enumerations of the
    same invocation outside check mode, in the same order: its trace is the
    trace of that run up to its first create, destroy or unregister
    call. *)
Theorem check_mode_same_lookups (self : VmwareFolderManager) :
  check_mode self = true →
  trace (ensure self)
  = filter (λ c, is_lookup c = true) (trace (ensure (uncheck self)))
  ∧ ∃ rest, trace (ensure (uncheck self)) = trace (ensure self) ++ rest
            ∧ filter (λ c, is_lookup c = true) rest = [].
Proof.
  intros Hcheck.
  assert (Hreal : check_mode (uncheck self) = false) by done.
  assert (Hsplit : ∀ tr rest,
            Forall (λ c, is_lookup c = true) tr →
            filter (λ c, is_lookup c = true) rest = [] →
            tr = filter (λ c, is_lookup c = true) (tr ++ rest)
            ∧ ∃ rest', tr ++ rest = tr ++ rest'
                       ∧ filter (λ c, is_lookup c = true) rest' = []).
  { intros tr rest Hl Hr. split; [|by exists rest].
    by rewrite filter_app, Hr, app_nil_r, (filter_lookups_all tr Hl). }
  assert (Hsame : ∀ tr,
            Forall (λ c, is_lookup c = true) tr →
            tr = filter (λ c, is_lookup c = true) tr
            ∧ ∃ rest', tr = tr ++ rest'
                       ∧ filter (λ c, is_lookup c = true) rest' = []).
  { intros tr Hl. split; [by rewrite (filter_lookups_all tr Hl)|].
    exists []. by rewrite app_nil_r. }
  destruct (state (params self)) eqn:Hstate.
  - assert (Hstate' : state (params (uncheck self)) = present) by done.
    pose proof (present_lookup_only_lookups self) as Hquiet. unfold only_lookups in Hquiet.
    destruct (present_lookup self) as [tr [[p pf]|e|o]] eqn:Hlookup; simpl in Hquiet;
      pose proof (Hlookup : present_lookup (uncheck self) = _) as Hlookup'.
    + pose proof (present_lookup_handed self tr p pf Hlookup) as Hover.
      rewrite (ensure_present_handed self tr p pf Hstate Hlookup).
      rewrite (ensure_present_handed (uncheck self) tr p pf Hstate' Hlookup').
      destruct (create_dry self p pf Hcheck Hover) as [msg ->].
      destruct (create_outcome (uncheck self) p pf Hreal Hover) as [msg' ->].
      simpl. rewrite app_nil_r. by apply Hsplit.
    + rewrite (ensure_present_raise self tr e Hstate Hlookup).
      rewrite (ensure_present_raise (uncheck self) tr e Hstate' Hlookup'). simpl.
      by apply Hsame.
    + rewrite (ensure_present_exit self tr o Hstate Hlookup).
      rewrite (ensure_present_exit (uncheck self) tr o Hstate' Hlookup'). simpl.
      by apply Hsame.
  - assert (Hstate' : state (params (uncheck self)) = absent) by done.
    pose proof (absent_lookup_only_lookups self) as Hquiet. unfold only_lookups in Hquiet.
    destruct (absent_lookup self) as [tr [[[f|] pf]|e|o]] eqn:Hlookup; simpl in Hquiet;
      pose proof (Hlookup : absent_lookup (uncheck self) = _) as Hlookup'.
    + rewrite (ensure_absent_found self tr f pf Hstate Hlookup).
      rewrite (ensure_absent_found (uncheck self) tr f pf Hstate' Hlookup').
      destruct (remove_dry self f pf Hcheck) as [msg ->].
      rewrite (remove_outcome (uncheck self) f pf Hreal).
      simpl. rewrite app_nil_r. apply Hsplit; [done|].
      unfold removal_call.
      destruct (folder_type (params (uncheck self)));
        by destruct (removal_answer (uncheck self) f).
    + rewrite (ensure_absent_none self tr pf Hstate Hlookup).
      rewrite (ensure_absent_none (uncheck self) tr pf Hstate' Hlookup'). simpl.
      by apply Hsame.
    + rewrite (ensure_absent_raise self tr e Hstate Hlookup).
      rewrite (ensure_absent_raise (uncheck self) tr e Hstate' Hlookup'). simpl.
      by apply Hsame.
    + rewrite (ensure_absent_exit self tr o Hstate Hlookup).
      rewrite (ensure_absent_exit (uncheck self) tr o Hstate' Hlookup'). simpl.
      by apply Hsame.
Qed.

Lemma check_mode_same_lookups_witness :
  let self := Sample.manager Sample.ok_client true
                (Sample.request absent "tier2" (Some "tier1") None) in
  trace (ensure self)
  = filter (λ c, is_lookup c = true) (trace (ensure (uncheck self)))
  ∧ ∃ rest, trace (ensure (uncheck self)) = trace (ensure self) ++ rest
            ∧ filter (λ c, is_lookup c = true) rest = [].
Proof.
  intros self. apply (check_mode_same_lookups self). reflexivity.
Defined.

(** ** What [state=absent] reports *)

(** X17. With [state=absent] a successful exit never reports a path: the
    [result] of the payload is the empty object, and what there is of
    a message is the top-level [msg]. *)
Theorem absent_result_is_empty (self : VmwareFolderManager) (r : gmap string value) :
  state (params self) = absent →
  final (ensure self) = Exit (ExitJson r) →
  r !! "result" = Some (VDict ∅).
Proof.
  intros Hstate.
  destruct (absent_lookup self) as [tr [[[f|] pf]|e|o]] eqn:Hlookup.
  - rewrite (ensure_absent_found self tr f pf Hstate Hlookup). simpl.
    destruct (check_mode self) eqn:Hcheck.
    + destruct (remove_dry self f pf Hcheck) as [msg ->]. simpl. by intros [= <-].
    + rewrite (remove_outcome self f pf Hcheck). simpl.
      destruct (removal_answer self f) as [e|t]; [by destruct e|].
      destruct (wait_for_task (content self) t) as [e|[changed msg]]; [by destruct e|].
      by intros [= <-].
  - rewrite (ensure_absent_none self tr pf Hstate Hlookup). simpl. by intros [= <-].
  - by rewrite (ensure_absent_raise self tr e Hstate Hlookup).
  - rewrite (ensure_absent_exit self tr o Hstate Hlookup). simpl. intros [= ->].
    pose proof (absent_lookup_fails_only self) as Hfail.
    unfold ends in Hfail. rewrite Hlookup in Hfail. simpl in Hfail.
    by destruct Hfail.
Qed.

Lemma absent_result_is_empty_witness :
  removed_results true "done" !! "result" = Some (VDict ∅).
Proof.
  apply (absent_result_is_empty
           (Sample.manager Sample.ok_client false
              (Sample.request absent "Shared" None None))).
  - reflexivity.
  - by vm_compute.
Defined.

(** ** A folder that exists, no parent given *)

(** X18. With [state=present] and no parent given, when the lookup finds
    the folder, [ensure] exits after that one enumeration with [changed]
    false, and [result] holds the path of the folder found and the message
    that it already exists; nothing is created, in or out of check
    mode. *)
Theorem existing_without_parent (self : VmwareFolderManager) (f : moid) :
  state (params self) = present →
  PyStr.truthy (parent_folder_moid (params self)) = false →
  PyStr.truthy (parent_folder (params self)) = false →
  final (get_folder self (datacenter (params self)) (folder_name (params self))
           (folder_type (params self)) None) = Ret (Some f) →
  ensure self
  = ([CallGetAllObjs None],
     Exit (ExitJson
             (<["result" :=
                  VDict {[ "msg" := "Folder " +:+ folder_name (params self)
                                    +:+ " already exists";
                           "path" := get_folder_path (content self) f ]}]> results0))).
Proof.
  intros Hstate Hmoid Hpf Hfound.
  unfold ensure, ensure_present, present_lookup. cbv zeta.
  unfold nonempty. rewrite Hstate, Hmoid, Hpf, get_folder_shape, Hfound.
  rewrite bind_Ret. cbv beta iota.
  rewrite set_result_item_results0, bind_pure, set_result_item_again, bind_pure.
  reflexivity.
Qed.

Lemma existing_without_parent_witness :
  let self := Sample.manager Sample.ok_client true
                (Sample.request present "tier1" None None) in
  ensure self
  = ([CallGetAllObjs None],
     Exit (ExitJson
             (<["result" :=
                  VDict {[ "msg" := "Folder " +:+ folder_name (params self)
                                    +:+ " already exists";
                           "path" := get_folder_path (content self) "group-v12" ]}]>
                results0))).
Proof.
  intros self. apply (existing_without_parent self "group-v12"); reflexivity.
Defined.
